(** * github_summarizer: the orchestration logic of [app.py]

    A shallow embedding of [app.py]: the URL helpers
    ([extract_github_details], [is_valid_github_url],
    [check_github_repo_exists]), the document loader and index builders
    ([load_documents], [create_index], [create_summary]) and one execution of
    the Streamlit script body [main] against the session state.

    Python values are modelled as follows.
    - [str] is [string], the bytes of the text in UTF-8; the methods the
      program uses ([strip], [count],
      [split], [startswith], [lower], [find], slicing) are in [Module Str].
    - A call that may raise returns an [outcome]; [try ... except ValueError]
      is [try_except_ValueError].
    - The libraries the program calls (requests, llama_index, the Gemini
      client, os.environ) are a record [World] of oracles: one field per
      library entry point, giving the outcome of the call for its arguments.
    - [st.session_state] is the record [SessionState]; one run of the script
      is a computation in the monad [M], which threads the session state and
      the trace of library calls and error banners, and keeps both when an
      exception escapes. *)

From Stdlib Require Import String Ascii List ZArith Bool Arith Lia.
Import ListNotations.

Local Open Scope string_scope.
Local Open Scope list_scope.

(** ** Exceptions *)

(** The program only distinguishes [ValueError] (and its subclasses, which
    [except ValueError] also catches) from every other exception. *)
Inductive exn : Type :=
| ValueError
| OtherError.

Inductive outcome (A : Type) : Type :=
| Return (a : A)
| Raise (e : exn).
Arguments Return {A} a.
Arguments Raise {A} e.

Definition outcome_bind {A B} (o : outcome A) (k : A -> outcome B) : outcome B :=
  match o with
  | Return a => k a
  | Raise e => Raise e
  end.

(** ** Python [str] methods *)

Module Str.

Definition is_empty (s : string) : bool :=
  match s with
  | EmptyString => true
  | String _ _ => false
  end.

(** [c in s] for a one-character [c]. *)
Fixpoint contains (c : ascii) (s : string) : bool :=
  match s with
  | EmptyString => false
  | String a r => Ascii.eqb a c || contains c r
  end.

(** [s.startswith(p)] *)
Fixpoint startswith (s p : string) {struct p} : bool :=
  match p with
  | EmptyString => true
  | String b p' =>
      match s with
      | EmptyString => false
      | String a s' => Ascii.eqb a b && startswith s' p'
      end
  end.

(** [s.lstrip(chars)], [s.rstrip(chars)], [s.strip(chars)]: [chars] is a
    set of characters, not a prefix. *)
Fixpoint lstrip (s chars : string) : string :=
  match s with
  | EmptyString => EmptyString
  | String a r => if contains a chars then lstrip r chars else s
  end.

Fixpoint rstrip (s chars : string) : string :=
  match s with
  | EmptyString => EmptyString
  | String a r =>
      let r' := rstrip r chars in
      if is_empty r' && contains a chars then EmptyString else String a r'
  end.

Definition strip (s chars : string) : string := rstrip (lstrip s chars) chars.

(** [s.count(c)] for a one-character [c]. *)
Fixpoint count (s : string) (c : ascii) : nat :=
  match s with
  | EmptyString => 0
  | String a r => (if Ascii.eqb a c then 1 else 0) + count r c
  end.

(** [s.partition(c)] without the separator: the text before the first [c]
    and the text after it, [None] when [c] does not occur. *)
Fixpoint cut (s : string) (c : ascii) : option (string * string) :=
  match s with
  | EmptyString => None
  | String a r =>
      if Ascii.eqb a c then Some (EmptyString, r)
      else match cut r c with
           | Some (h, t) => Some (String a h, t)
           | None => None
           end
  end.

(** [s.split(c, 1)] *)
Definition split1 (s : string) (c : ascii) : list string :=
  match cut s c with
  | Some (h, t) => [h; t]
  | None => [s]
  end.

(** [s.split(c)]; the fuel is the length of [s], which bounds the number
    of separators. *)
Fixpoint split_fuel (n : nat) (s : string) (c : ascii) : list string :=
  match n with
  | O => [s]
  | S n' =>
      match cut s c with
      | Some (h, t) => h :: split_fuel n' t c
      | None => [s]
      end
  end.

Definition split (s : string) (c : ascii) : list string :=
  split_fuel (String.length s) s c.

(** [s.find(c)] and [s.find(c, start)]; [None] is Python's [-1]. *)
Fixpoint find (s : string) (c : ascii) : option nat :=
  match s with
  | EmptyString => None
  | String a r =>
      if Ascii.eqb a c then Some 0
      else option_map S (find r c)
  end.

Fixpoint drop (n : nat) (s : string) : string :=
  match n, s with
  | O, _ => s
  | S n', String _ r => drop n' r
  | S _, EmptyString => EmptyString
  end.

Fixpoint take (n : nat) (s : string) : string :=
  match n, s with
  | S n', String a r => String a (take n' r)
  | _, _ => EmptyString
  end.

Definition find_from (s : string) (c : ascii) (start : nat) : option nat :=
  if Nat.ltb (String.length s) start then None
  else option_map (Nat.add start) (find (drop start s) c).

(** [s.rfind(c)] *)
Fixpoint rfind (s : string) (c : ascii) : option nat :=
  match s with
  | EmptyString => None
  | String a r =>
      match rfind r c with
      | Some i => Some (S i)
      | None => if Ascii.eqb a c then Some 0 else None
      end
  end.

(** [s.replace(c, "")] *)
Fixpoint remove (s : string) (c : ascii) : string :=
  match s with
  | EmptyString => EmptyString
  | String a r => if Ascii.eqb a c then remove r c else String a (remove r c)
  end.

Definition is_upper (a : ascii) : bool :=
  Nat.leb 65 (nat_of_ascii a) && Nat.leb (nat_of_ascii a) 90.
Definition is_lower (a : ascii) : bool :=
  Nat.leb 97 (nat_of_ascii a) && Nat.leb (nat_of_ascii a) 122.
Definition is_digit (a : ascii) : bool :=
  Nat.leb 48 (nat_of_ascii a) && Nat.leb (nat_of_ascii a) 57.
Definition is_ascii (a : ascii) : bool := Nat.ltb (nat_of_ascii a) 128.
Definition is_ascii_alpha (a : ascii) : bool := is_upper a || is_lower a.

Definition lower_char (a : ascii) : ascii :=
  if is_upper a then ascii_of_nat (nat_of_ascii a + 32) else a.

(** [s.lower()] on ASCII text. *)
Fixpoint lower (s : string) : string :=
  match s with
  | EmptyString => EmptyString
  | String a r => String (lower_char a) (lower r)
  end.

Fixpoint forallb (p : ascii -> bool) (s : string) : bool :=
  match s with
  | EmptyString => true
  | String a r => p a && forallb p r
  end.

Fixpoint lstrip_if (p : ascii -> bool) (s : string) : string :=
  match s with
  | EmptyString => EmptyString
  | String a r => if p a then lstrip_if p r else s
  end.

(** [x in xs] for a list of strings. *)
Definition mem (x : string) (xs : list string) : bool :=
  existsb (String.eqb x) xs.

(** A [str] is held as the bytes of its UTF-8 encoding. *)
Definition bytes (codes : list nat) : string :=
  fold_right (fun n s => String (ascii_of_nat n) s) EmptyString codes.

(** The characters [str.strip()] removes, those for which [str.isspace()]
    holds: U+0009 to U+000D, U+001C to U+0020, U+0085, U+00A0, U+1680,
    U+2000 to U+200A, U+2028, U+2029, U+202F, U+205F and U+3000, each as
    its UTF-8 encoding. *)
Definition whitespace : list string :=
  map bytes
    [ [9]; [10]; [11]; [12]; [13]; [28]; [29]; [30]; [31]; [32];
      [194; 133]; [194; 160]; [225; 154; 128];
      [226; 128; 128]; [226; 128; 129]; [226; 128; 130]; [226; 128; 131];
      [226; 128; 132]; [226; 128; 133]; [226; 128; 134]; [226; 128; 135];
      [226; 128; 136]; [226; 128; 137]; [226; 128; 138];
      [226; 128; 168]; [226; 128; 169]; [226; 128; 175];
      [226; 129; 159]; [227; 128; 128] ].

(** What follows the prefix [p] in [s], when [s] begins with [p]. *)
Fixpoint after_prefix (p s : string) : option string :=
  match p, s with
  | EmptyString, _ => Some s
  | String a p', String b s' =>
      if Ascii.eqb a b then after_prefix p' s' else None
  | String _ _, EmptyString => None
  end.

Fixpoint after_one_of (ps : list string) (s : string) : option string :=
  match ps with
  | [] => None
  | p :: ps' =>
      match after_prefix p s with
      | Some r => Some r
      | None => after_one_of ps' s
      end
  end.

(** [s.lstrip()]; no more characters are removed than [s] has bytes. *)
Fixpoint lstrip_space_fuel (fuel : nat) (s : string) : string :=
  match fuel with
  | 0 => s
  | S fuel' =>
      match after_one_of whitespace s with
      | Some r => lstrip_space_fuel fuel' r
      | None => s
      end
  end.

Definition lstrip_space (s : string) : string :=
  lstrip_space_fuel (String.length s) s.

(** [s.rstrip()]: what is left of the tail, and the character before it
    when that is all white space. *)
Fixpoint rstrip_space (s : string) : string :=
  match s with
  | EmptyString => EmptyString
  | String a r =>
      let r' := rstrip_space r in
      if mem (String a r') whitespace then EmptyString else String a r'
  end.

(** [s.strip()] *)
Definition strip_space (s : string) : string :=
  rstrip_space (lstrip_space s).

End Str.

(** Tuple unpacking [a, b = xs]: anything but two items raises ValueError. *)
Definition unpack2 {A} (xs : list A) : outcome (A * A) :=
  match xs with
  | [a; b] => Return (a, b)
  | _ => Raise ValueError
  end.

(** ** [urllib.parse.urlparse]

    The program reads [scheme], [netloc] and [path] of the parse result.
    The model follows CPython's [urlsplit] and [urlparse] (3.12) on byte
    strings.  Two validation routines of the library are not modelled and
    are taken as parameters: [check_bracketed_host], called on the text
    between brackets when the host has both [[] and []], and [checknetloc],
    whose Unicode normalisation test only runs on a host with a non-ASCII
    character.  Both either pass or raise ValueError. *)

Record ParseResult : Type := mkParseResult {
  scheme : string;
  netloc : string;
  path : string;
  params : string;
  query : string;
  fragment : string
}.

Class UrlChecks : Type := {
  check_bracketed_host : string -> bool;
  checknetloc : string -> bool
}.

Module urllib_parse.

(** Characters stripped from the front of the URL: C0 controls and space. *)
Definition c0_control_or_space (a : ascii) : bool := Nat.leb (nat_of_ascii a) 32.

(** [_UNSAFE_URL_BYTES_TO_REMOVE = ['\t', '\r', '\n']] *)
Definition remove_unsafe (s : string) : string :=
  Str.remove (Str.remove (Str.remove s (ascii_of_nat 9)) (ascii_of_nat 13))
    (ascii_of_nat 10).

Definition scheme_char (a : ascii) : bool :=
  Str.is_ascii_alpha a || Str.is_digit a
  || Ascii.eqb a "+" || Ascii.eqb a "-" || Ascii.eqb a ".".

Definition uses_params : list string :=
  [""; "ftp"; "hdl"; "prospero"; "http"; "imap"; "https"; "shttp"; "rtsp";
   "rtspu"; "sip"; "sips"; "mms"; "sftp"; "tel"].

Definition opt_min (d : nat) (o : option nat) : nat :=
  match o with
  | Some w => Nat.min d w
  | None => d
  end.

(** [_splitnetloc(url, 2)]: the host ends at the first of [/ ? #]. *)
Definition splitnetloc (url : string) : string * string :=
  let delim := String.length url in
  let delim := opt_min delim (Str.find_from url "/" 2) in
  let delim := opt_min delim (Str.find_from url "?" 2) in
  let delim := opt_min delim (Str.find_from url "#" 2) in
  (Str.take (delim - 2) (Str.drop 2 url), Str.drop delim url).

(** The scheme split at the head of [urlsplit]. *)
Definition split_scheme (url : string) : string * string :=
  match Str.find url ":" with
  | Some (S i') =>
      let i := S i' in
      match url with
      | String a _ =>
          if Str.is_ascii a && Str.is_ascii_alpha a
             && Str.forallb scheme_char (Str.take i url)
          then (Str.lower (Str.take i url), Str.drop (S i) url)
          else (EmptyString, url)
      | EmptyString => (EmptyString, url)
      end
  | _ => (EmptyString, url)
  end.

(** [netloc.partition('[')[2].partition(']')[0]] *)
Definition bracketed_host (netloc : string) : string :=
  match Str.cut netloc "[" with
  | Some (_, after) =>
      match Str.cut after "]" with
      | Some (h, _) => h
      | None => after
      end
  | None => EmptyString
  end.

Section Parse.
Context {checks : UrlChecks}.

Definition split_netloc_checked (url : string) : outcome (string * string) :=
  if Str.startswith url "//" then
    let '(netloc, rest) := splitnetloc url in
    let lb := Str.contains "[" netloc in
    let rb := Str.contains "]" netloc in
    if (lb && negb rb) || (rb && negb lb) then Raise ValueError
    else if lb && rb then
      if check_bracketed_host (bracketed_host netloc)
      then Return (netloc, rest) else Raise ValueError
    else Return (netloc, rest)
  else Return (EmptyString, url).

(** [urlsplit(url)]: (scheme, netloc, path, query, fragment). *)
Definition urlsplit (url : string)
  : outcome (string * string * string * string * string) :=
  let url := Str.lstrip_if c0_control_or_space url in
  let url := remove_unsafe url in
  let '(scheme, url) := split_scheme url in
  outcome_bind (split_netloc_checked url) (fun '(netloc, url) =>
  let '(url, fragment) :=
    match Str.cut url "#" with
    | Some (u, f) => (u, f)
    | None => (url, EmptyString)
    end in
  let '(url, query) :=
    match Str.cut url "?" with
    | Some (u, q) => (u, q)
    | None => (url, EmptyString)
    end in
  if Str.is_empty netloc || Str.forallb Str.is_ascii netloc
     || checknetloc netloc
  then Return (scheme, netloc, url, query, fragment)
  else Raise ValueError).

(** [_splitparams(url)] *)
Definition splitparams (url : string) : string * string :=
  let cut_at (i : nat) := (Str.take i url, Str.drop (S i) url) in
  match Str.rfind url "/" with
  | Some j =>
      match Str.find_from url ";" j with
      | Some i => cut_at i
      | None => (url, EmptyString)
      end
  | None =>
      match Str.find url ";" with
      | Some i => cut_at i
      (* [url[:-1], url[0:]]; unreachable, the caller checks [';' in url] *)
      | None => (Str.take (String.length url - 1) url, url)
      end
  end.

Definition urlparse (url : string) : outcome ParseResult :=
  outcome_bind (urlsplit url) (fun '(scheme, netloc, url, query, fragment) =>
  let '(url, params) :=
    if Str.mem scheme uses_params && Str.contains ";" url
    then splitparams url
    else (url, EmptyString) in
  Return (mkParseResult scheme netloc url params query fragment)).

End Parse.

End urllib_parse.

(** ** The URL helpers of [app.py] *)

Section UrlHelpers.
Context {checks : UrlChecks}.

(** [extract_github_details(url)], lines 52-60.  The pair [(None, None)]
    is the result for a path that does not have exactly one separator. *)
Definition extract_github_details (url : string)
  : outcome (option string * option string) :=
  outcome_bind (urllib_parse.urlparse url) (fun parsed_url =>
  let path := Str.strip (path parsed_url) "/" in
  if Nat.eqb (Str.count path "/") 1 then
    outcome_bind (unpack2 (Str.split1 path "/")) (fun '(user, repo) =>
    Return (Some user, Some repo))
  else Return (None, None)).

(** [is_valid_github_url(url)], lines 62-66. *)
Definition is_valid_github_url (url : string) : outcome bool :=
  outcome_bind (urllib_parse.urlparse url) (fun parsed_url =>
  Return (Str.mem (scheme parsed_url) ["http"; "https"]
          && String.eqb (netloc parsed_url) "github.com"
          && Str.startswith (path parsed_url) "/")).

End UrlHelpers.

(** ** Library objects *)

(** A document of the reader: the file it was read from and its text. *)
Record Document : Type := mkDocument {
  file_path : string;
  text : string
}.

Inductive FilterType : Type := EXCLUDE | INCLUDE.

Record GithubClient : Type := mkGithubClient {
  client_github_token : string;
  client_verbose : bool
}.

(** The keyword arguments [load_documents] gives to
    [GithubRepositoryReader(...)]. *)
Record GithubRepositoryReader : Type := mkGithubRepositoryReader {
  reader_github_client : option GithubClient;
  owner : option string;
  repo : option string;
  use_parser : bool;
  verbose : bool;
  filter_directories : list string * FilterType;
  filter_file_extensions : list string * FilterType
}.

(** A transformation of the ingestion pipeline of llama_index: the token
    splitter the script makes (lines 173-175), or the node parser held by
    the library's global [Settings], a sentence splitter with the library's
    default sizes unless the program sets another; [app.py] sets only
    [Settings.llm] and [Settings.embed_model] (lines 113-115). *)
Inductive Transformation : Type :=
| TokenTextSplitter (chunk_size chunk_overlap : Z)
| Settings_node_parser.

(** [Settings.transformations] when the program has not set it. *)
Definition Settings_transformations : list Transformation :=
  [Settings_node_parser].

(** The transformations [from_documents] runs on the documents: its first
    step is [transformations = transformations or Settings.transformations],
    so a missing or empty argument means the library's own. *)
Definition transformations_applied
    (argument : option (list Transformation)) : list Transformation :=
  match argument with
  | Some (t :: ts) => t :: ts
  | _ => Settings_transformations
  end.

(** Indices and chat engines are opaque objects of llama_index. *)
Inductive VectorStoreIndex : Type := VectorStoreIndex_object (id : nat).
Inductive SummaryIndex : Type := SummaryIndex_object (id : nat).
Inductive ChatEngine : Type := ChatEngine_object (id : nat).

(** The module [constant], which is not among the sources. *)
Record Constants : Type := mkConstants {
  Gemini_api : string;
  github_token : string
}.

(** The library entry points the program calls, as they answer during one
    run of the script.  The two [from_documents] class methods take
    [documents], [show_progress] and the optional keyword [transformations]
    ([None] when the caller leaves it out).  [query_method] and
    [chat_method] are the evaluation of [engine.query] and [engine.chat]:
    the bound method, or the AttributeError of an engine class that has no
    such method; the method gives the text of the response object. *)
Record World : Type := mkWorld {
  os_environ_setitem : string -> string -> outcome unit;
  Gemini : outcome unit;
  GeminiEmbedding : string -> string -> outcome unit;
  requests_get : string -> outcome Z;
  GithubClient_new : string -> bool -> outcome GithubClient;
  load_data : GithubRepositoryReader -> string -> outcome (list Document);
  VectorStoreIndex_from_documents :
    list Document -> bool -> option (list Transformation) ->
    outcome VectorStoreIndex;
  SummaryIndex_from_documents :
    list Document -> bool -> option (list Transformation) ->
    outcome SummaryIndex;
  index_as_chat_engine : VectorStoreIndex -> outcome ChatEngine;
  summary_as_chat_engine : SummaryIndex -> outcome ChatEngine;
  query_method : ChatEngine -> outcome (string -> outcome string);
  chat_method : ChatEngine -> outcome (string -> outcome string)
}.

(** [engine.query(q)] and [engine.chat(q)] as one expression: the method is
    looked up, then called. *)
Definition engine_query (w : World) (engine : ChatEngine) (q : string)
  : outcome string :=
  outcome_bind (query_method w engine) (fun method => method q).

Definition engine_chat (w : World) (engine : ChatEngine) (q : string)
  : outcome string :=
  outcome_bind (chat_method w engine) (fun method => method q).

(** ** Session state, events and the script monad *)

(** One item of [st.session_state.chat_history]: the dict with the keys
    ['question'] and ['achat_response']. *)
Record ChatHistoryEntry : Type := mkEntry {
  question : string;
  achat_response : string
}.

(** [st.session_state].  [has_github_client] is
    ['github_client' in st.session_state]; the other fields are the values
    under the six keys the script sets. *)
Record SessionState : Type := mkSessionState {
  has_github_client : bool;
  github_client : option GithubClient;
  index : option VectorStoreIndex;
  summary : option SummaryIndex;
  query_engine : option ChatEngine;
  summary_query_engine : option ChatEngine;
  chat_history : list ChatHistoryEntry
}.

(** The session state of a new browser session: no key is set. *)
Definition new_session : SessionState :=
  mkSessionState false None None None None None [].

(** What a run does that is visible outside the script: the library calls,
    with their arguments, and the error banners. *)
Inductive Event : Type :=
| Ev_st_error (msg : string)
| Ev_os_environ_setitem (key value : string)
| Ev_Gemini
| Ev_GeminiEmbedding (model_name api_key : string)
| Ev_requests_get (url : string)
| Ev_GithubClient (token : string) (verbose : bool)
| Ev_load_data (reader : GithubRepositoryReader) (branch : string)
| Ev_VectorStoreIndex_from_documents (documents : list Document)
    (show_progress : bool) (transformations : option (list Transformation))
| Ev_SummaryIndex_from_documents (documents : list Document)
    (show_progress : bool) (transformations : option (list Transformation))
| Ev_index_as_chat_engine (i : VectorStoreIndex)
| Ev_summary_as_chat_engine (s : SummaryIndex)
| Ev_query (engine : ChatEngine) (q : string)
| Ev_chat (engine : ChatEngine) (q : string).

Record Store : Type := mkStore {
  session : SessionState;
  trace : list Event
}.

Definition M (A : Type) : Type := Store -> outcome A * Store.

Definition ret {A} (a : A) : M A := fun st => (Return a, st).

Definition bind {A B} (m : M A) (k : A -> M B) : M B :=
  fun st =>
    match m st with
    | (Return a, st') => k a st'
    | (Raise e, st') => (Raise e, st')
    end.

Declare Scope script_scope.
Delimit Scope script_scope with script.
Notation "x <- m ;; k" := (bind m (fun x => k))
  (at level 61, m at next level, right associativity) : script_scope.
Notation "' p <- m ;; k" := (bind m (fun x => let 'p := x in k))
  (at level 61, p pattern, m at next level, right associativity) : script_scope.
Notation "m ;; k" := (bind m (fun _ => k))
  (at level 61, right associativity) : script_scope.
Local Open Scope script_scope.

(** A pure computation that may raise. *)
Definition lift {A} (o : outcome A) : M A := fun st => (o, st).

Definition raise {A} (e : exn) : M A := lift (Raise e).

(** A library call: it is recorded, then returns or raises. *)
Definition call {A} (ev : Event) (o : outcome A) : M A :=
  fun st => (o, mkStore (session st) (trace st ++ [ev])).

Definition st_error (msg : string) : M unit := call (Ev_st_error msg) (Return tt).

(** [try: body / except ValueError: handler].  What [body] did before it
    raised stays done. *)
Definition try_except_ValueError {A} (body handler : M A) : M A :=
  fun st =>
    match body st with
    | (Raise ValueError, st') => handler st'
    | r => r
    end.

(** [executor.submit(f, ...)] and [future.result()].  The task runs in a
    worker thread; its library calls are recorded at submission, and the
    exception it raised, if any, is raised again by [result]. *)
Definition submit {A} (task : M A) : M (outcome A) :=
  fun st => let '(o, st') := task st in (Return o, st').

Definition result {A} (future : outcome A) : M A := lift future.

(** Reading and writing [st.session_state.<field>]. *)
Definition read {A} (field : SessionState -> A) : M A :=
  fun st => (Return (field (session st)), st).

Definition write (update : SessionState -> SessionState) : M unit :=
  fun st => (Return tt, mkStore (update (session st)) (trace st)).

Definition set_github_client (v : option GithubClient) (s : SessionState) :=
  mkSessionState true v (index s) (summary s) (query_engine s)
    (summary_query_engine s) (chat_history s).
Definition set_index (v : option VectorStoreIndex) (s : SessionState) :=
  mkSessionState (has_github_client s) (github_client s) v (summary s)
    (query_engine s) (summary_query_engine s) (chat_history s).
Definition set_summary (v : option SummaryIndex) (s : SessionState) :=
  mkSessionState (has_github_client s) (github_client s) (index s) v
    (query_engine s) (summary_query_engine s) (chat_history s).
Definition set_query_engine (v : option ChatEngine) (s : SessionState) :=
  mkSessionState (has_github_client s) (github_client s) (index s) (summary s)
    v (summary_query_engine s) (chat_history s).
Definition set_summary_query_engine (v : option ChatEngine) (s : SessionState) :=
  mkSessionState (has_github_client s) (github_client s) (index s) (summary s)
    (query_engine s) v (chat_history s).
Definition set_chat_history (v : list ChatHistoryEntry) (s : SessionState) :=
  mkSessionState (has_github_client s) (github_client s) (index s) (summary s)
    (query_engine s) (summary_query_engine s) v.

(** [x.attr] where [x] may be [None]: AttributeError on [None]. *)
Definition attr_of {A} (x : option A) : M A :=
  match x with
  | Some a => ret a
  | None => raise OtherError
  end.

Definition is_None {A} (x : option A) : bool :=
  match x with
  | Some _ => false
  | None => true
  end.

(** ** The functions of [app.py] that call libraries *)

(** The values of the widgets during one run of the script: the repository
    link, the branch, the checkbox and text of the excluded directories, the
    question box (key ["question_input"]) and whether "Submit Question" was
    pressed. *)
Record Widgets : Type := mkWidgets {
  github_repo_link : string;
  branch : string;
  exclude_dirs : bool;
  excluded_dirs_input : string;
  question_input : string;
  submit_question : bool
}.

(** The extension denylist of [load_documents], lines 30-39. *)
Definition excluded_file_extensions : list string :=
  [".png"; ".jpg"; ".jpeg"; ".gif"; ".svg"; ".ico"; ".pdf"; ".csv"].

Section Script.
Context {checks : UrlChecks}.
Variable constant : Constants.
Variable w : World.

(** [load_documents(github_client, user, repo, excluded_dirs, branch)],
    lines 17-42. *)
Definition load_documents (github_client : option GithubClient)
    (user repo : option string) (excluded_dirs : list string)
    (branch : string) : M (list Document) :=
  let reader :=
    {| reader_github_client := github_client;
       owner := user;
       repo := repo;
       use_parser := true;
       verbose := false;
       filter_directories := (excluded_dirs, EXCLUDE);
       filter_file_extensions := (excluded_file_extensions, EXCLUDE) |} in
  call (Ev_load_data reader branch) (load_data w reader branch).

(** [create_index(documents, transformations)], lines 44-46. *)
Definition create_index (documents : list Document)
    (transformations : list Transformation) : M VectorStoreIndex :=
  call (Ev_VectorStoreIndex_from_documents documents true (Some transformations))
       (VectorStoreIndex_from_documents w documents true (Some transformations)).

(** [create_summary(documents)], lines 48-50: no [transformations]
    argument is given. *)
Definition create_summary (documents : list Document) : M SummaryIndex :=
  call (Ev_SummaryIndex_from_documents documents true None)
       (SummaryIndex_from_documents w documents true None).

(** [check_github_repo_exists(url)], lines 68-77. *)
Definition check_github_repo_exists (url : string) : M bool :=
  try_except_ValueError
    (parsed_url <- lift (urllib_parse.urlparse url) ;;
     let path := Str.strip (path parsed_url) "/" in
     '(user, repo) <- lift (unpack2 (Str.split1 path "/")) ;;
     let api_url := ("https://github.com/" ++ user ++ "/" ++ repo)%string in
     status_code <- call (Ev_requests_get api_url) (requests_get w api_url) ;;
     ret (Z.eqb status_code 200))
    (ret false).

(** *** [main], lines 79-242

    Calls that only render ([st.markdown], [st.write], [st.divider],
    [st.spinner], [st.container]) and [nest_asyncio.apply()] are left out;
    [st.error] is recorded. *)

Variable widgets : Widgets.

(** Lines 101-111: each of the two [try] blocks; [true] when the script
    goes on, [false] when it returns. *)
Definition set_environ (key value message : string) : M bool :=
  try_except_ValueError
    (call (Ev_os_environ_setitem key value) (os_environ_setitem w key value) ;;
     ret true)
    (st_error message ;; ret false).

(** Lines 118-124. *)
Definition init_session_state : M unit :=
  present <- read has_github_client ;;
  if negb present then
    write (set_github_client None) ;;
    write (set_index None) ;;
    write (set_summary None) ;;
    write (set_query_engine None) ;;
    write (set_summary_query_engine None) ;;
    write (set_chat_history [])
  else ret tt.

(** Lines 163-171. *)
Definition read_excluded_dirs : list string :=
  if exclude_dirs widgets then
    if negb (Str.is_empty (excluded_dirs_input widgets)) then
      map Str.strip_space (Str.split (excluded_dirs_input widgets) ",")
    else []
  else [].

(** Lines 178-187. *)
Definition process_data (user repo : option string)
    (excluded_dirs : list string) (branch : string)
    (transformations : list Transformation) : M unit :=
  index_now <- read index ;;
  summary_now <- read summary ;;
  if is_None index_now || is_None summary_now then
    client <- read github_client ;;
    future_documents <-
      submit (load_documents client user repo excluded_dirs branch) ;;
    documents <- result future_documents ;;
    future_index <- submit (create_index documents transformations) ;;
    future_summary <- submit (create_summary documents) ;;
    new_index <- result future_index ;;
    write (set_index (Some new_index)) ;;
    new_summary <- result future_summary ;;
    write (set_summary (Some new_summary))
  else ret tt.

(** Lines 189-192. *)
Definition make_query_engines : M unit :=
  engine <- read query_engine ;;
  (if is_None engine then
     index_now <- read index ;;
     i <- attr_of index_now ;;
     e <- call (Ev_index_as_chat_engine i) (index_as_chat_engine w i) ;;
     write (set_query_engine (Some e))
   else ret tt) ;;
  engine <- read summary_query_engine ;;
  if is_None engine then
    summary_now <- read summary ;;
    s <- attr_of summary_now ;;
    e <- call (Ev_summary_as_chat_engine s) (summary_as_chat_engine w s) ;;
    write (set_summary_query_engine (Some e))
  else ret tt.

(** Lines 225-238.  The arguments of [executor.submit] are evaluated before
    the task is submitted, so the look-up of [.query] (line 228) and of
    [.chat] (line 229) happens in the script itself: when it raises, that
    task is not submitted. *)
Definition submit_question_block : M unit :=
  if submit_question widgets then
    let question := question_input widgets in
    if negb (Str.is_empty question) then
      summary_engine_now <- read summary_query_engine ;;
      summary_engine <- attr_of summary_engine_now ;;
      query <- lift (query_method w summary_engine) ;;
      future_summary <-
        submit (call (Ev_query summary_engine question) (query question)) ;;
      engine_now <- read query_engine ;;
      engine <- attr_of engine_now ;;
      chat <- lift (chat_method w engine) ;;
      future_achat <-
        submit (call (Ev_chat engine question) (chat question)) ;;
      summary_response <- result future_summary ;;
      achat_response <- result future_achat ;;
      history <- read chat_history ;;
      write (set_chat_history
               (history ++ [ {| question := question;
                                achat_response := achat_response |} ]))
    else ret tt
  else ret tt.

(** Lines 134-135. *)
Definition make_github_client : M unit :=
  client <- read github_client ;;
  if is_None client then
    c <- call (Ev_GithubClient (github_token constant) true)
              (GithubClient_new w (github_token constant) true) ;;
    write (set_github_client (Some c))
  else ret tt.

(** Lines 134-238: the branch taken when the repository exists. *)
Definition repository_page (github_repo_link : string) : M unit :=
  make_github_client ;;
  '(user, repo) <- lift (extract_github_details github_repo_link) ;;
  let branch := branch widgets in
  let excluded_dirs := read_excluded_dirs in
  let transformations := [TokenTextSplitter 512 128] in
  process_data user repo excluded_dirs branch transformations ;;
  make_query_engines ;;
  submit_question_block.

(** Lines 127-242. *)
Definition link_block : M unit :=
  let github_repo_link := github_repo_link widgets in
  if negb (Str.is_empty github_repo_link) then
    valid <- lift (is_valid_github_url github_repo_link) ;;
    if negb valid then
      st_error "The URL format is incorrect. Please enter a valid GitHub repository URL."
    else
      found <- check_github_repo_exists github_repo_link ;;
      if found then repository_page github_repo_link
      else st_error "The GitHub repository does not exist or the URL is incorrect."
  else ret tt.

Definition main : M unit :=
  go_on <- set_environ "GOOGLE_API_KEY" (Gemini_api constant)
             "Google API key is not set." ;;
  if negb go_on then ret tt else
  go_on <- set_environ "GITHUB_TOKEN" (github_token constant)
             "GitHub Token API key is not set." ;;
  if negb go_on then ret tt else
  call Ev_Gemini (Gemini w) ;;
  call (Ev_GeminiEmbedding "models/embedding-001" (Gemini_api constant))
       (GeminiEmbedding w "models/embedding-001" (Gemini_api constant)) ;;
  init_session_state ;;
  link_block.

End Script.

(** One run of the script on a session state: the result of [main], the
    session state it leaves and the events of the run. *)
Definition run_main {checks : UrlChecks} (constant : Constants) (w : World)
    (widgets : Widgets) (s : SessionState)
  : outcome unit * SessionState * list Event :=
  let '(o, st) := main constant w widgets (mkStore s []) in
  (o, session st, trace st).

(** A browser session: the script runs once per interaction, each run with
    the widgets' values and the libraries' answers of that moment, on the
    session state the previous run left (also when it ended in an
    exception).  The result is the final state and the events of all runs. *)
Fixpoint run_session {checks : UrlChecks} (constant : Constants)
    (runs : list (World * Widgets)) (s : SessionState)
  : SessionState * list Event :=
  match runs with
  | [] => (s, [])
  | (w, widgets) :: rest =>
      let '(_, s', events) := run_main constant w widgets s in
      let '(s'', events') := run_session constant rest s' in
      (s'', events ++ events')
  end.

(** ** The states of the orchestrator

    The specification describes the session as a machine with four states.
    The script keeps no such variable; the state is read off the session
    fields: the indices and both engines are there in [Ready], the indices
    only in [IndicesBuilt], the client only in [RepoValidated]. *)
Inductive OrchestratorState : Type :=
| Empty
| RepoValidated
| IndicesBuilt
| Ready.

Definition orchestrator_state (s : SessionState) : OrchestratorState :=
  if negb (is_None (index s)) && negb (is_None (summary s)) then
    if negb (is_None (query_engine s)) && negb (is_None (summary_query_engine s))
    then Ready else IndicesBuilt
  else if negb (is_None (github_client s)) then RepoValidated
  else Empty.

(** The build operations: the document fetch and the two index builds. *)
Definition is_build_event (ev : Event) : bool :=
  match ev with
  | Ev_load_data _ _ => true
  | Ev_VectorStoreIndex_from_documents _ _ _ => true
  | Ev_SummaryIndex_from_documents _ _ _ => true
  | _ => false
  end.

Definition is_engine_construction (ev : Event) : bool :=
  match ev with
  | Ev_index_as_chat_engine _ => true
  | Ev_summary_as_chat_engine _ => true
  | _ => false
  end.

Definition is_requests_get (ev : Event) : bool :=
  match ev with
  | Ev_requests_get _ => true
  | _ => false
  end.

(** ** The file filters of the GitHub reader

    [GithubRepositoryReader] belongs to llama_index.  What the program
    relies on is the meaning of its two filter arguments.  The extension of
    a path is computed as the reader does, with [os.path.splitext] and
    lower-casing. *)

Module os_path.

(** [posixpath.splitext(p)]: the extension starts at the last dot of the
    last path component, unless that component has only leading dots. *)
Definition splitext (p : string) : string * string :=
  let filename_index :=
    match Str.rfind p "/" with
    | Some sep_index => S sep_index
    | None => 0
    end in
  match Str.rfind p "." with
  | Some dot_index =>
      if Nat.leb filename_index dot_index
         && negb (Str.forallb (Ascii.eqb ".")
                    (Str.take (dot_index - filename_index)
                       (Str.drop filename_index p)))
      then (Str.take dot_index p, Str.drop dot_index p)
      else (p, EmptyString)
  | None => (p, EmptyString)
  end.

End os_path.

(** [get_file_extension(filename)] of the reader:
    [f".{os.path.splitext(filename)[1][1:].lower()}"]. *)
Definition get_file_extension (filename : string) : string :=
  String "." (Str.lower (Str.drop 1 (snd (os_path.splitext filename)))).

(** The reader keeps its promise on [filter_file_extensions] when no
    document it returns under an [EXCLUDE] filter has a listed extension. *)
Definition honours_extension_filter (w : World) : Prop :=
  forall reader branch documents,
    load_data w reader branch = Return documents ->
    snd (filter_file_extensions reader) = EXCLUDE ->
    forall d, In d documents ->
      Str.mem (get_file_extension (file_path d))
              (fst (filter_file_extensions reader)) = false.

(** *** A reference reader

    A reader over a fixed listing of a branch, which applies the two filters
    as the reader does while it walks the tree: the prefix test on every
    directory above the file, and on the file both the prefix test on its
    own path and the extension test. *)
Module ReferenceReader.

(** The directories above a file: ["a/b/c.py"] gives [["a"; "a/b"]]. *)
Fixpoint directories_above (seen rest : string) : list string :=
  match rest with
  | EmptyString => []
  | String a r =>
      if Ascii.eqb a "/"
      then seen :: directories_above (seen ++ "/")%string r
      else directories_above (seen ++ String a EmptyString)%string r
  end.

Definition check_filter_file_extensions (reader : GithubRepositoryReader)
    (tree_obj_path : string) : bool :=
  let '(extensions, filter_type) := filter_file_extensions reader in
  match filter_type with
  | EXCLUDE => negb (Str.mem (get_file_extension tree_obj_path) extensions)
  | INCLUDE => Str.mem (get_file_extension tree_obj_path) extensions
  end.

Definition check_filter_directories (reader : GithubRepositoryReader)
    (tree_obj_path : string) : bool :=
  let '(directories, filter_type) := filter_directories reader in
  match filter_type with
  | EXCLUDE => negb (existsb (Str.startswith tree_obj_path) directories)
  | INCLUDE =>
      existsb (fun directory => Str.startswith directory tree_obj_path
                                || Str.startswith tree_obj_path directory)
              directories
  end.

Definition keeps_file (reader : GithubRepositoryReader) (d : Document) : bool :=
  List.forallb (check_filter_directories reader)
               (directories_above EmptyString (file_path d))
  && check_filter_directories reader (file_path d)
  && check_filter_file_extensions reader (file_path d).

Definition load_data (files : list Document)
    (reader : GithubRepositoryReader) (branch : string)
  : outcome (list Document) :=
  Return (filter (keeps_file reader) files).

End ReferenceReader.

(** ** Example environments *)

(** URL checks that accept every host they are asked about. *)
Definition lenient_checks : UrlChecks :=
  {| check_bracketed_host := fun _ => true;
     checknetloc := fun _ => true |}.

Definition example_constants : Constants :=
  {| Gemini_api := "gemini-key"; github_token := "github-token" |}.

(** A world in which every call succeeds: every page exists, the branch
    holds [files], an index is numbered by the documents it was built from
    and the chat engine answers with [reply]. *)
Definition example_world (files : list Document) (reply : string -> string)
  : World :=
  {| os_environ_setitem := fun _ _ => Return tt;
     Gemini := Return tt;
     GeminiEmbedding := fun _ _ => Return tt;
     requests_get := fun _ => Return 200%Z;
     GithubClient_new := fun token verbose => Return (mkGithubClient token verbose);
     load_data := ReferenceReader.load_data files;
     VectorStoreIndex_from_documents :=
       fun documents _ _ => Return (VectorStoreIndex_object (List.length documents));
     SummaryIndex_from_documents :=
       fun documents _ _ => Return (SummaryIndex_object (List.length documents));
     index_as_chat_engine :=
       fun '(VectorStoreIndex_object n) => Return (ChatEngine_object (2 * n));
     summary_as_chat_engine :=
       fun '(SummaryIndex_object n) => Return (ChatEngine_object (2 * n + 1));
     query_method := fun _ => Return (fun q => Return ("Summary: " ++ q)%string);
     chat_method := fun _ => Return (fun q => Return (reply q)) |}.


Definition hello_world_files : list Document :=
  [ mkDocument "README" "Hello World!";
    mkDocument "docs/logo.PNG" "binary";
    mkDocument "docs/guide.md" "How to say hello";
    mkDocument "data/table.csv" "a,b";
    mkDocument "src/hello.py" "print('hello')" ].

Definition linux_files : list Document :=
  [ mkDocument "Makefile" "all:";
    mkDocument "kernel/fork.c" "int fork(void);";
    mkDocument "kernel/exit.c" "void do_exit(long);";
    mkDocument "README" "Linux kernel" ].

Definition echo_reply (q : string) : string := ("Answer to: " ++ q)%string.

(** A session that has reached [Ready]. *)
Definition ready_session : SessionState :=
  {| has_github_client := true;
     github_client := Some (mkGithubClient "github-token" true);
     index := Some (VectorStoreIndex_object 3);
     summary := Some (SummaryIndex_object 3);
     query_engine := Some (ChatEngine_object 6);
     summary_query_engine := Some (ChatEngine_object 7);
     chat_history := [] |}.

Definition ask (link q : string) : Widgets :=
  {| github_repo_link := link;
     branch := "master";
     exclude_dirs := false;
     excluded_dirs_input := "";
     question_input := q;
     submit_question := true |}.

(** * Properties *)

(** ** Strings *)

Lemma count_zero_cut (s : string) (c : ascii) :
  Str.count s c = 0 -> Str.cut s c = None.
Proof.
  induction s as [|a r IH]; simpl; intros H.
  - reflexivity.
  - destruct (Ascii.eqb a c); [discriminate|].
    rewrite IH by exact H. reflexivity.
Qed.

Lemma count_pos_cut (s : string) (c : ascii) :
  Str.count s c <> 0 -> exists h t, Str.cut s c = Some (h, t).
Proof.
  induction s as [|a r IH]; simpl; intros H.
  - congruence.
  - destruct (Ascii.eqb a c).
    + eauto.
    + destruct (IH H) as (h & t & E). rewrite E. eauto.
Qed.

Lemma split1_no_separator (s : string) (c : ascii) :
  Str.count s c = 0 -> Str.split1 s c = [s].
Proof.
  intros H. unfold Str.split1. rewrite count_zero_cut by exact H. reflexivity.
Qed.

Lemma split1_two_parts (s : string) (c : ascii) :
  Str.count s c <> 0 -> exists h t, Str.split1 s c = [h; t].
Proof.
  intros H. destruct (count_pos_cut s c H) as (h & t & E).
  unfold Str.split1. rewrite E. eauto.
Qed.

Lemma startswith_slash (s : string) :
  Str.startswith s "/" = true <-> exists rest, s = String "/" rest.
Proof.
  split.
  - destruct s as [|a r]; simpl; [discriminate|].
    rewrite andb_true_r. intros H. apply Ascii.eqb_eq in H. subst a. eauto.
  - intros [rest ->]. reflexivity.
Qed.

Lemma mem_http_https (s : string) :
  Str.mem s ["http"; "https"] = true <-> s = "http" \/ s = "https".
Proof.
  unfold Str.mem; simpl. rewrite orb_false_r, orb_true_iff, !String.eqb_eq.
  reflexivity.
Qed.

(** ** The URL helpers *)

Section UrlProperties.
Context {checks : UrlChecks}.

(** What [is_valid_github_url] accepts, in terms of the parsed URL. *)
Definition accepted_by_validator (p : ParseResult) : Prop :=
  (scheme p = "http" \/ scheme p = "https")
  /\ netloc p = "github.com"
  /\ exists rest, path p = String "/" rest.

Lemma is_valid_github_url_true (url : string) (p : ParseResult) :
  urllib_parse.urlparse url = Return p ->
  (is_valid_github_url url = Return true <-> accepted_by_validator p).
Proof.
  intros E. unfold is_valid_github_url, accepted_by_validator.
  rewrite E; cbn [outcome_bind].
  rewrite <- mem_http_https, <- startswith_slash, <- String.eqb_eq.
  split.
  - intros H. injection H as H.
    apply andb_true_iff in H as [H H3]. apply andb_true_iff in H as [H1 H2].
    auto.
  - intros (H1 & H2 & H3). rewrite H1, H2, H3. reflexivity.
Qed.

Lemma is_valid_github_url_bool (url : string) (p : ParseResult) :
  urllib_parse.urlparse url = Return p ->
  exists b, is_valid_github_url url = Return b.
Proof.
  intros E. unfold is_valid_github_url. rewrite E. simpl. eauto.
Qed.

(** C1 (as amended): on a URL that [urlparse] accepts,
    [is_valid_github_url] returns false exactly when the scheme is not
    http or https, or the host is not exactly "github.com", or the path
    does not begin with "/"; it returns true in every other case, and the
    number of "/" separators in the path plays no part. *)
Theorem is_valid_github_url_rejects (url : string) (p : ParseResult) :
  urllib_parse.urlparse url = Return p ->
  (is_valid_github_url url = Return false <-> ~ accepted_by_validator p)
  /\ (is_valid_github_url url = Return true <-> accepted_by_validator p).
Proof.
  intros E. pose proof (is_valid_github_url_true url p E) as T.
  split; [|exact T].
  destruct (is_valid_github_url_bool url p E) as [[|] Eb]; rewrite Eb in *.
  - split; [discriminate|]. intros N. exfalso. apply N, T. reflexivity.
  - split; [|reflexivity]. intros _ A. apply T in A. discriminate.
Qed.

(** [extract_github_details] gives both names exactly when the stripped
    path has one separator, and [(None, None)] otherwise. *)
Lemma extract_github_details_spec (url : string) (p : ParseResult) :
  urllib_parse.urlparse url = Return p ->
  let stripped := Str.strip (path p) "/" in
  (Str.count stripped "/" = 1 ->
     exists user repo,
       Str.split1 stripped "/" = [user; repo]
       /\ extract_github_details url = Return (Some user, Some repo))
  /\ (Str.count stripped "/" <> 1 ->
        extract_github_details url = Return (None, None)).
Proof.
  intros E stripped. unfold extract_github_details. rewrite E; simpl.
  fold stripped. split; intros H.
  - rewrite H; simpl.
    destruct (split1_two_parts stripped "/") as (h & t & S1); [lia|].
    rewrite S1; simpl. eauto.
  - apply Nat.eqb_neq in H. rewrite H. reflexivity.
Qed.

End UrlProperties.

(** ** Reasoning about script computations

    A relation [R] between the store before and after a computation that is
    reflexive and transitive is kept by [ret], [bind] and the other
    combinators, so it is enough to check it on the library calls and the
    writes to the session state. *)

Section Respects.
Variable R : Store -> Store -> Prop.
Hypothesis R_refl : forall st, R st st.
Hypothesis R_trans : forall st1 st2 st3, R st1 st2 -> R st2 st3 -> R st1 st3.

Definition respects {A} (m : M A) : Prop := forall st, R st (snd (m st)).

Lemma respects_ret {A} (a : A) : respects (ret a).
Proof. intros st. apply R_refl. Qed.

Lemma respects_lift {A} (o : outcome A) : respects (lift o).
Proof. intros st. apply R_refl. Qed.

Lemma respects_raise {A} (e : exn) : respects (@raise A e).
Proof. intros st. apply R_refl. Qed.

Lemma respects_result {A} (f : outcome A) : respects (result f).
Proof. intros st. apply R_refl. Qed.

Lemma respects_read {A} (field : SessionState -> A) : respects (read field).
Proof. intros st. apply R_refl. Qed.

Lemma respects_attr_of {A} (x : option A) : respects (attr_of x).
Proof. destruct x; intros st; apply R_refl. Qed.

Lemma respects_bind {A B} (m : M A) (k : A -> M B) :
  respects m -> (forall a, respects (k a)) -> respects (bind m k).
Proof.
  intros Hm Hk st. unfold bind.
  specialize (Hm st). destruct (m st) as [[a|e] st1]; simpl in *.
  - eapply R_trans; [exact Hm|]. apply Hk.
  - exact Hm.
Qed.

(** After a pure step, the rest runs on the value the step returned. *)
Lemma respects_bind_lift {A B} (o : outcome A) (k : A -> M B) :
  (forall a, o = Return a -> respects (k a)) -> respects (bind (lift o) k).
Proof.
  intros Hk st. unfold bind, lift. destruct o as [a|e]; simpl.
  - apply Hk. reflexivity.
  - apply R_refl.
Qed.

Lemma respects_try {A} (body handler : M A) :
  respects body -> respects handler ->
  respects (try_except_ValueError body handler).
Proof.
  intros Hb Hh st. unfold try_except_ValueError.
  specialize (Hb st). destruct (body st) as [[a|[|]] st1]; simpl in *; auto.
  eapply R_trans; [exact Hb|]. apply Hh.
Qed.

Lemma respects_submit {A} (task : M A) : respects task -> respects (submit task).
Proof.
  intros Ht st. unfold submit. specialize (Ht st).
  destruct (task st) as [o st1]. exact Ht.
Qed.

End Respects.

(** *** What a run may do to an initialised session

    Once ['github_client'] is in the session state: the key stays; a client,
    an engine, or the pair of indices, once there, is kept as it is; the
    chat history only grows at its end. *)
Definition session_step (s s' : SessionState) : Prop :=
  has_github_client s = true ->
  has_github_client s' = true
  /\ (github_client s <> None -> github_client s' = github_client s)
  /\ (index s <> None -> summary s <> None ->
      index s' = index s /\ summary s' = summary s)
  /\ (query_engine s <> None -> query_engine s' = query_engine s)
  /\ (summary_query_engine s <> None ->
      summary_query_engine s' = summary_query_engine s)
  /\ (exists new, chat_history s' = chat_history s ++ new).

(** ... and which library calls it may make: a build only while an index is
    missing, a constructor only for an object that is missing (an engine
    from the stored index, when the pair of indices is there), and a
    question only to the stored engine, when there is one. *)
Definition event_allowed (s : SessionState) (ev : Event) : Prop :=
  has_github_client s = true ->
  match ev with
  | Ev_load_data _ _
  | Ev_VectorStoreIndex_from_documents _ _ _
  | Ev_SummaryIndex_from_documents _ _ _ => index s = None \/ summary s = None
  | Ev_GithubClient _ _ => github_client s = None
  | Ev_index_as_chat_engine i =>
      query_engine s = None
      /\ (forall i', index s = Some i' -> summary s <> None -> i = i')
  | Ev_summary_as_chat_engine m =>
      summary_query_engine s = None
      /\ (forall m', summary s = Some m' -> index s <> None -> m = m')
  | Ev_query e _ => forall e', summary_query_engine s = Some e' -> e = e'
  | Ev_chat e _ => forall e', query_engine s = Some e' -> e = e'
  | _ => True
  end.

Definition run_step (st st' : Store) : Prop :=
  session_step (session st) (session st')
  /\ exists evs, trace st' = trace st ++ evs
                 /\ Forall (event_allowed (session st)) evs.

Lemma session_step_refl (s : SessionState) : session_step s s.
Proof.
  intros H. repeat split; auto. exists []. symmetry. apply app_nil_r.
Qed.

Lemma session_step_trans (s1 s2 s3 : SessionState) :
  session_step s1 s2 -> session_step s2 s3 -> session_step s1 s3.
Proof.
  intros H12 H23 H1.
  destruct (H12 H1) as (A2 & C12 & I12 & Q12 & S12 & [n12 E12]).
  destruct (H23 A2) as (A3 & C23 & I23 & Q23 & S23 & [n23 E23]).
  split; [exact A3|].
  split; [intros N; rewrite <- (C12 N); apply C23; rewrite (C12 N); exact N|].
  split.
  { intros Ni Ns. destruct (I12 Ni Ns) as [Ei Es].
    destruct I23 as [Ei' Es']; [congruence|congruence|]. split; congruence. }
  split; [intros N; rewrite <- (Q12 N); apply Q23; rewrite (Q12 N); exact N|].
  split; [intros N; rewrite <- (S12 N); apply S23; rewrite (S12 N); exact N|].
  exists (n12 ++ n23). rewrite E23, E12, app_assoc. reflexivity.
Qed.

Lemma event_allowed_earlier (s1 s2 : SessionState) (ev : Event) :
  session_step s1 s2 -> event_allowed s2 ev -> event_allowed s1 ev.
Proof.
  intros H12 H2 H1.
  destruct (H12 H1) as (A2 & C12 & I12 & Q12 & S12 & _).
  specialize (H2 A2).
  assert (Build : index s2 = None \/ summary s2 = None ->
                  index s1 = None \/ summary s1 = None).
  { intros B. destruct (index s1) eqn:Ei; [|auto].
    destruct (summary s1) eqn:Es; [|auto].
    destruct I12 as [Ei' Es']; [congruence|congruence|].
    destruct B; congruence. }
  destruct ev; simpl in *; auto.
  - destruct (github_client s1) eqn:E; [|reflexivity].
    rewrite C12 in H2; congruence.
  - destruct H2 as [N2 F2]. split.
    + destruct (query_engine s1) eqn:E; [|reflexivity].
      rewrite Q12 in N2; congruence.
    + intros i' Ei Ns. destruct I12 as [Ei' Es']; [congruence|exact Ns|].
      apply F2; congruence.
  - destruct H2 as [N2 F2]. split.
    + destruct (summary_query_engine s1) eqn:E; [|reflexivity].
      rewrite S12 in N2; congruence.
    + intros m' Em Ni. destruct I12 as [Ei' Es']; [exact Ni|congruence|].
      apply F2; congruence.
  - intros e' E. apply H2. rewrite S12; congruence.
  - intros e' E. apply H2. rewrite Q12; congruence.
Qed.

Lemma run_step_refl (st : Store) : run_step st st.
Proof.
  split; [apply session_step_refl|].
  exists []. split; [symmetry; apply app_nil_r|constructor].
Qed.

Lemma run_step_trans (st1 st2 st3 : Store) :
  run_step st1 st2 -> run_step st2 st3 -> run_step st1 st3.
Proof.
  intros [S12 (e12 & T12 & F12)] [S23 (e23 & T23 & F23)].
  split; [eapply session_step_trans; eauto|].
  exists (e12 ++ e23). split.
  - rewrite T23, T12, app_assoc. reflexivity.
  - apply Forall_app. split; [exact F12|].
    eapply Forall_impl; [|exact F23].
    intros ev. apply event_allowed_earlier. exact S12.
Qed.

Lemma run_step_intro (s s' : SessionState) (tr evs : list Event) :
  session_step s s' -> Forall (event_allowed s) evs ->
  run_step (mkStore s tr) (mkStore s' (tr ++ evs)).
Proof. intros H F. split; [exact H|]. exists evs. auto. Qed.

Lemma run_step_call {A} (ev : Event) (o : outcome A) :
  (forall s, event_allowed s ev) -> respects run_step (call ev o).
Proof.
  intros H [s tr]. unfold call; simpl.
  apply run_step_intro; [apply session_step_refl|]. constructor; auto.
Qed.

Lemma run_step_write (update : SessionState -> SessionState) :
  (forall s, session_step s (update s)) -> respects run_step (write update).
Proof.
  intros H [s tr]. unfold write; simpl.
  rewrite <- (app_nil_r tr) at 2. apply run_step_intro; auto.
Qed.

Ltac unfold_script :=
  unfold bind, ret, read, write, call, lift, raise, result, submit, attr_of,
    st_error, try_except_ValueError; simpl.

Ltac solve_session_step :=
  unfold session_step, set_github_client, set_index, set_summary,
    set_query_engine, set_summary_query_engine, set_chat_history;
  simpl; intros;
  repeat match goal with
         | |- _ /\ _ => split
         | |- exists new, ?h ++ _ = ?h ++ new => eexists; reflexivity
         | |- exists new, ?h = ?h ++ new => exists []; symmetry; apply app_nil_r
         | |- _ -> _ => intros
         end;
  try congruence.

Ltac solve_event :=
  unfold event_allowed; simpl; intros;
  first [ exact I | congruence | left; congruence | right; congruence
        | split; intros; congruence ].

Ltac solve_events :=
  repeat first [ apply Forall_nil | apply Forall_cons; [solve_event|] ].

Ltac solve_run_step :=
  repeat rewrite <- app_assoc; simpl;
  first [ apply run_step_refl
        | apply run_step_intro; [solve_session_step | solve_events]
        | match goal with
          | |- run_step (mkStore ?s ?tr) (mkStore ?s' ?tr) =>
              rewrite <- (app_nil_r tr) at 2;
              apply run_step_intro; [solve_session_step | solve_events]
          end ].

Ltac crunch :=
  repeat first
         [ progress (unfold ret, raise, lift)
         | progress simpl
         | match goal with
          | |- context [is_None ?x] => is_var x; destruct x
          | |- context [match ?x with Return _ => _ | Raise _ => _ end] =>
              destruct x
          | |- context [match ?x with Some _ => _ | None => _ end] =>
              destruct x
          | |- context [if negb ?b then _ else _] => destruct b eqn:?
          | |- context [if ?b then _ else _] => destruct b eqn:?
          end ].

Section ScriptSteps.
Context {checks : UrlChecks}.
Variable constant : Constants.
Variable w : World.
Variable widgets : Widgets.

Lemma st_error_step (msg : string) : respects run_step (st_error msg).
Proof. apply run_step_call. intros s H. exact I. Qed.

Lemma set_environ_step (key value message : string) :
  respects run_step (set_environ w key value message).
Proof.
  unfold set_environ. apply respects_try; try apply run_step_trans.
  - apply respects_bind; try apply run_step_trans.
    + apply run_step_call. intros s H. exact I.
    + intros ?. apply respects_ret, run_step_refl.
  - apply respects_bind; try apply run_step_trans.
    + apply st_error_step.
    + intros ?. apply respects_ret, run_step_refl.
Qed.

Lemma init_session_state_step : respects run_step init_session_state.
Proof.
  intros [[? ? ? ? ? ? ?] ?]. unfold init_session_state.
  unfold_script. crunch; solve_run_step.
Qed.

Lemma check_github_repo_exists_step (url : string) :
  respects run_step (check_github_repo_exists w url).
Proof.
  unfold check_github_repo_exists.
  apply respects_try; try apply run_step_trans.
  - apply respects_bind; try apply run_step_trans; [apply respects_lift, run_step_refl|].
    intros p.
    apply respects_bind; try apply run_step_trans; [apply respects_lift, run_step_refl|].
    intros [user repo].
    apply respects_bind; try apply run_step_trans.
    + apply run_step_call. intros s H. exact I.
    + intros sc. apply respects_ret, run_step_refl.
  - apply respects_ret, run_step_refl.
Qed.

Lemma process_data_step (user repo : option string)
    (excluded_dirs : list string) (branch : string)
    (transformations : list Transformation) :
  respects run_step
    (process_data w user repo excluded_dirs branch transformations).
Proof.
  intros [[? ? ? ? ? ? ?] ?].
  unfold process_data, load_documents, create_index, create_summary.
  unfold_script. crunch; solve_run_step.
Qed.

Lemma make_query_engines_step : respects run_step (make_query_engines w).
Proof.
  intros [[? ? ? ? ? ? ?] ?]. unfold make_query_engines.
  unfold_script. crunch; solve_run_step.
Qed.

Lemma submit_question_block_step :
  respects run_step (submit_question_block w widgets).
Proof.
  intros [[? ? ? ? ? ? ?] ?]. unfold submit_question_block.
  destruct (submit_question widgets); [|apply run_step_refl].
  destruct (Str.is_empty (question_input widgets)); simpl;
    [apply run_step_refl|].
  unfold_script. crunch; solve_run_step.
Qed.

Lemma make_github_client_step :
  respects run_step (make_github_client constant w).
Proof.
  intros [[? ? ? ? ? ? ?] ?]. unfold make_github_client. unfold_script.
  crunch; solve_run_step.
Qed.

Lemma repository_page_step (link : string) :
  respects run_step (repository_page constant w widgets link).
Proof.
  unfold repository_page.
  apply respects_bind; try apply run_step_trans;
    [apply make_github_client_step|].
  intros ?.
  apply respects_bind; try apply run_step_trans;
    [apply respects_lift, run_step_refl|].
  intros [user repo].
  apply respects_bind; try apply run_step_trans; [apply process_data_step|].
  intros ?.
  apply respects_bind; try apply run_step_trans;
    [apply make_query_engines_step|].
  intros ?. apply submit_question_block_step.
Qed.

Lemma link_block_step : respects run_step (link_block constant w widgets).
Proof.
  unfold link_block.
  destruct (negb (Str.is_empty (github_repo_link widgets)));
    [|apply respects_ret, run_step_refl].
  apply respects_bind; try apply run_step_trans;
    [apply respects_lift, run_step_refl|].
  intros valid. destruct (negb valid); [apply st_error_step|].
  apply respects_bind; try apply run_step_trans;
    [apply check_github_repo_exists_step|].
  intros found. destruct found; [apply repository_page_step|apply st_error_step].
Qed.

Lemma main_step : respects run_step (main constant w widgets).
Proof.
  unfold main.
  apply respects_bind; try apply run_step_trans; [apply set_environ_step|].
  intros go1. destruct (negb go1); [apply respects_ret, run_step_refl|].
  apply respects_bind; try apply run_step_trans; [apply set_environ_step|].
  intros go2. destruct (negb go2); [apply respects_ret, run_step_refl|].
  apply respects_bind; try apply run_step_trans.
  { apply run_step_call. intros s H. exact I. }
  intros ?.
  apply respects_bind; try apply run_step_trans.
  { apply run_step_call. intros s H. exact I. }
  intros ?.
  apply respects_bind; try apply run_step_trans;
    [apply init_session_state_step|].
  intros ?. apply link_block_step.
Qed.

End ScriptSteps.

(** *** The library calls of one run

    Independently of the session state, every event of a run has one of the
    shapes below: the arguments are the ones the script writes, and every
    call after the validation of the link happens only if the link passed. *)

Definition only_events (P : Event -> Prop) (st st' : Store) : Prop :=
  exists evs, trace st' = trace st ++ evs /\ Forall P evs.

Lemma only_events_refl (P : Event -> Prop) (st : Store) : only_events P st st.
Proof. exists []. split; [symmetry; apply app_nil_r|constructor]. Qed.

Lemma only_events_trans (P : Event -> Prop) (st1 st2 st3 : Store) :
  only_events P st1 st2 -> only_events P st2 st3 -> only_events P st1 st3.
Proof.
  intros (e12 & T12 & F12) (e23 & T23 & F23). exists (e12 ++ e23). split.
  - rewrite T23, T12, app_assoc. reflexivity.
  - apply Forall_app. auto.
Qed.

Lemma only_events_call (P : Event -> Prop) {A} (ev : Event) (o : outcome A) :
  P ev -> respects (only_events P) (call ev o).
Proof.
  intros H st. exists [ev]. split; [reflexivity|]. constructor; auto.
Qed.

Lemma only_events_write (P : Event -> Prop)
    (update : SessionState -> SessionState) :
  respects (only_events P) (write update).
Proof.
  intros st. exists []. split; [symmetry; apply app_nil_r|constructor].
Qed.

Section ScriptEvents.
Context {checks : UrlChecks}.
Variable constant : Constants.
Variable w : World.
Variable widgets : Widgets.

Definition link_passed_validation : Prop :=
  is_valid_github_url (github_repo_link widgets) = Return true.

Definition script_event (ev : Event) : Prop :=
  match ev with
  | Ev_st_error _ => True
  | Ev_os_environ_setitem key value =>
      (key = "GOOGLE_API_KEY" /\ value = Gemini_api constant)
      \/ (key = "GITHUB_TOKEN" /\ value = github_token constant)
  | Ev_Gemini => True
  | Ev_GeminiEmbedding model_name api_key =>
      model_name = "models/embedding-001" /\ api_key = Gemini_api constant
  | Ev_requests_get url => link_passed_validation
  | Ev_GithubClient token verbose =>
      link_passed_validation /\ token = github_token constant /\ verbose = true
  | Ev_load_data reader b =>
      link_passed_validation
      /\ b = branch widgets
      /\ extract_github_details (github_repo_link widgets)
         = Return (owner reader, repo reader)
      /\ use_parser reader = true
      /\ verbose reader = false
      /\ filter_directories reader = (read_excluded_dirs widgets, EXCLUDE)
      /\ filter_file_extensions reader = (excluded_file_extensions, EXCLUDE)
  | Ev_VectorStoreIndex_from_documents _ show_progress transformations =>
      link_passed_validation
      /\ show_progress = true
      /\ transformations = Some [TokenTextSplitter 512 128]
  | Ev_SummaryIndex_from_documents _ show_progress transformations =>
      link_passed_validation
      /\ show_progress = true
      /\ transformations = None
  | Ev_index_as_chat_engine _ => link_passed_validation
  | Ev_summary_as_chat_engine _ => link_passed_validation
  | Ev_query _ q | Ev_chat _ q =>
      link_passed_validation
      /\ submit_question widgets = true
      /\ q = question_input widgets
      /\ q <> EmptyString
  end.

Let E := only_events script_event.
Let E_refl := only_events_refl script_event.
Let E_trans := only_events_trans script_event.

Ltac step_bind := apply (respects_bind E E_trans).
Ltac step_done :=
  first [ apply (respects_ret E E_refl)
        | apply (respects_lift E E_refl)
        | apply (respects_read E E_refl)
        | apply (respects_result E E_refl)
        | apply (respects_attr_of E E_refl)
        | apply only_events_write ].
Ltac step_call := apply only_events_call; simpl; auto 10.
Ltac steps :=
  repeat first
    [ step_done
    | step_call
    | apply (respects_submit E)
    | step_bind; [|intros ?]
    | match goal with
      | |- respects _ (if ?b then _ else _) => destruct b eqn:?
      end ].

Lemma set_environ_events (key value message : string) :
  script_event (Ev_os_environ_setitem key value) ->
  respects E (set_environ w key value message).
Proof.
  intros H. unfold set_environ, st_error.
  apply (respects_try E E_trans); steps.
Qed.

Lemma init_session_state_events : respects E init_session_state.
Proof. unfold init_session_state. steps. Qed.

Section LinkPassed.
Hypothesis passed : link_passed_validation.

Lemma check_github_repo_exists_events (url : string) :
  respects E (check_github_repo_exists w url).
Proof.
  unfold check_github_repo_exists.
  apply (respects_try E E_trans); steps.
  destruct a0. steps.
Qed.

Lemma make_github_client_events :
  respects E (make_github_client constant w).
Proof. unfold make_github_client. steps. Qed.

Lemma process_data_events (user repo : option string) :
  extract_github_details (github_repo_link widgets) = Return (user, repo) ->
  respects E
    (process_data w user repo (read_excluded_dirs widgets)
       (branch widgets) [TokenTextSplitter 512 128]).
Proof.
  intros X.
  unfold process_data, load_documents, create_index, create_summary.
  steps.
Qed.

Lemma make_query_engines_events : respects E (make_query_engines w).
Proof. unfold make_query_engines. steps. Qed.

Lemma submit_question_block_events :
  respects E (submit_question_block w widgets).
Proof.
  unfold submit_question_block.
  destruct (submit_question widgets) eqn:S; [|steps].
  destruct (question_input widgets) as [|c q] eqn:Q; simpl; [steps|].
  assert (String c q <> EmptyString) by discriminate.
  steps.
Qed.

Lemma repository_page_events :
  respects E (repository_page constant w widgets (github_repo_link widgets)).
Proof.
  unfold repository_page.
  step_bind; [apply make_github_client_events|intros ?].
  apply (respects_bind_lift E E_refl). intros [user repo] X.
  step_bind; [apply process_data_events; exact X|intros ?].
  step_bind; [apply make_query_engines_events|intros ?].
  apply submit_question_block_events.
Qed.

End LinkPassed.

Lemma link_block_events : respects E (link_block constant w widgets).
Proof.
  unfold link_block, st_error.
  destruct (negb (Str.is_empty (github_repo_link widgets))); [|steps].
  apply (respects_bind_lift E E_refl). intros valid V.
  destruct valid; simpl; [|steps].
  step_bind; [apply check_github_repo_exists_events; exact V|intros found].
  destruct found; [apply repository_page_events; exact V|steps].
Qed.

Lemma main_events : respects E (main constant w widgets).
Proof.
  unfold main.
  step_bind; [apply set_environ_events; simpl; auto|intros go1].
  destruct (negb go1); [steps|].
  step_bind; [apply set_environ_events; simpl; auto|intros go2].
  destruct (negb go2); [steps|].
  step_bind; [step_call|intros ?].
  step_bind; [step_call|intros ?].
  step_bind; [apply init_session_state_events|intros ?].
  apply link_block_events.
Qed.

End ScriptEvents.

(** *** The chat history before the question block

    Everything the script does before lines 225-238 leaves the chat history
    of an initialised session as it is, so a run is a sequence of such steps
    followed, when the run gets that far, by the question block. *)

Definition history_kept (st st' : Store) : Prop :=
  has_github_client (session st) = true ->
  has_github_client (session st') = true
  /\ chat_history (session st') = chat_history (session st).

Lemma history_kept_refl (st : Store) : history_kept st st.
Proof. intros H. auto. Qed.

Lemma history_kept_trans (st1 st2 st3 : Store) :
  history_kept st1 st2 -> history_kept st2 st3 -> history_kept st1 st3.
Proof.
  intros H12 H23 H1. destruct (H12 H1) as [A2 E12].
  destruct (H23 A2) as [A3 E23]. split; congruence.
Qed.

Lemma history_kept_call {A} (ev : Event) (o : outcome A) :
  respects history_kept (call ev o).
Proof. intros st H. simpl. auto. Qed.

Lemma history_kept_write (update : SessionState -> SessionState) :
  (forall s, has_github_client s = true ->
             has_github_client (update s) = true
             /\ chat_history (update s) = chat_history s) ->
  respects history_kept (write update).
Proof. intros U st H. simpl. auto. Qed.

Ltac history_steps :=
  repeat first
    [ apply (respects_ret history_kept history_kept_refl)
    | apply (respects_lift history_kept history_kept_refl)
    | apply (respects_read history_kept history_kept_refl)
    | apply (respects_result history_kept history_kept_refl)
    | apply (respects_attr_of history_kept history_kept_refl)
    | apply history_kept_call
    | apply history_kept_write; intros s Hs; simpl; auto
    | apply (respects_submit history_kept)
    | apply (respects_try history_kept history_kept_trans)
    | apply (respects_bind history_kept history_kept_trans); [|intros ?]
    | match goal with
      | |- respects _ (if ?b then _ else _) => destruct b
      | |- respects _ (let '(_, _) := ?x in _) => destruct x
      end ].

(** Both at once: what holds of every step before the question block. *)
Definition pre_step (st st' : Store) : Prop :=
  run_step st st' /\ history_kept st st'.

Lemma pre_step_refl (st : Store) : pre_step st st.
Proof. split; [apply run_step_refl|apply history_kept_refl]. Qed.

Lemma pre_step_trans (st1 st2 st3 : Store) :
  pre_step st1 st2 -> pre_step st2 st3 -> pre_step st1 st3.
Proof.
  intros [A1 B1] [A2 B2]. split.
  - eapply run_step_trans; eauto.
  - eapply history_kept_trans; eauto.
Qed.

Lemma respects_pre_step {A} (m : M A) :
  respects run_step m -> respects history_kept m -> respects pre_step m.
Proof. intros H1 H2 st. split; [apply H1|apply H2]. Qed.

Section QuestionLast.
Context {checks : UrlChecks}.
Variable constant : Constants.
Variable w : World.
Variable widgets : Widgets.

(** A computation that makes such steps and then, at most, hands over to
    the question block. *)
Definition question_last (m : M unit) : Prop :=
  forall st, exists st1,
    pre_step st st1
    /\ (snd (m st) = st1 \/ m st = submit_question_block w widgets st1).

Lemma question_last_kept (m : M unit) :
  respects run_step m -> respects history_kept m -> question_last m.
Proof.
  intros H1 H2 st. exists (snd (m st)).
  split; [apply respects_pre_step; assumption|auto].
Qed.

Lemma question_last_block : question_last (submit_question_block w widgets).
Proof. intros st. exists st. split; [apply pre_step_refl|auto]. Qed.

Lemma question_last_bind {A} (m : M A) (k : A -> M unit) :
  respects run_step m -> respects history_kept m ->
  (forall a, question_last (k a)) ->
  question_last (bind m k).
Proof.
  intros H1 H2 Hk st. unfold bind.
  pose proof (respects_pre_step m H1 H2 st) as Hm.
  destruct (m st) as [[a|e] st0]; simpl in *.
  - destruct (Hk a st0) as (st1 & K1 & D). exists st1.
    split; [eapply pre_step_trans; eauto|exact D].
  - exists st0. auto.
Qed.

Lemma init_session_state_kept : respects history_kept init_session_state.
Proof.
  intros [[? ? ? ? ? ? ?] ?] H. simpl in H. subst.
  unfold init_session_state. unfold_script. auto.
Qed.

Lemma ret_step {A} (a : A) : respects run_step (ret a).
Proof. apply respects_ret, run_step_refl. Qed.

Lemma lift_step {A} (o : outcome A) : respects run_step (lift o).
Proof. apply respects_lift, run_step_refl. Qed.

Lemma plain_call_step {A} (ev : Event) (o : outcome A) :
  (forall s, event_allowed s ev) -> respects run_step (call ev o).
Proof. apply run_step_call. Qed.

Lemma main_question_last : question_last (main constant w widgets).
Proof.
  unfold main.
  apply question_last_bind;
    [apply set_environ_step|unfold set_environ, st_error; history_steps|].
  intros go1.
  destruct (negb go1); [apply question_last_kept; [apply ret_step|history_steps]|].
  apply question_last_bind;
    [apply set_environ_step|unfold set_environ, st_error; history_steps|].
  intros go2.
  destruct (negb go2); [apply question_last_kept; [apply ret_step|history_steps]|].
  apply question_last_bind;
    [apply plain_call_step; intros s H; exact I|history_steps|intros ?].
  apply question_last_bind;
    [apply plain_call_step; intros s H; exact I|history_steps|intros ?].
  apply question_last_bind;
    [apply init_session_state_step|apply init_session_state_kept|intros ?].
  unfold link_block.
  destruct (negb (Str.is_empty (github_repo_link widgets)));
    [|apply question_last_kept; [apply ret_step|history_steps]].
  apply question_last_bind; [apply lift_step|history_steps|intros valid].
  destruct (negb valid);
    [apply question_last_kept;
     [apply st_error_step|unfold st_error; history_steps]|].
  apply question_last_bind;
    [apply check_github_repo_exists_step
    |unfold check_github_repo_exists; history_steps|intros found].
  destruct found;
    [|apply question_last_kept;
      [apply st_error_step|unfold st_error; history_steps]].
  unfold repository_page.
  apply question_last_bind;
    [apply make_github_client_step
    |unfold make_github_client; history_steps|intros ?].
  apply question_last_bind; [apply lift_step|history_steps|intros [user repo]].
  apply question_last_bind;
    [apply process_data_step
    |unfold process_data, load_documents, create_index, create_summary;
     history_steps|intros ?].
  apply question_last_bind;
    [apply make_query_engines_step
    |unfold make_query_engines; history_steps|intros ?].
  apply question_last_block.
Qed.

(** What the question block does to the session, from any store. *)
Lemma submit_question_block_cases (st : Store) :
  let q := question_input widgets in
  let r := submit_question_block w widgets st in
  session (snd r) = session st
  \/ (fst r = Return tt
      /\ submit_question widgets = true
      /\ q <> EmptyString
      /\ exists summary_engine engine summary_text a,
           summary_query_engine (session st) = Some summary_engine
           /\ query_engine (session st) = Some engine
           /\ engine_query w summary_engine q = Return summary_text
           /\ engine_chat w engine q = Return a
           /\ session (snd r)
              = set_chat_history
                  (chat_history (session st) ++ [mkEntry q a]) (session st)).
Proof.
  destruct st as [[? ? ? ? qe sqe ?] ?]. unfold submit_question_block.
  destruct (submit_question widgets); [|left; reflexivity].
  destruct (question_input widgets) as [|c q'] eqn:Q; [left; reflexivity|].
  unfold_script. unfold engine_query, engine_chat.
  destruct sqe as [se|]; [|left; reflexivity].
  unfold ret; simpl.
  destruct (query_method w se) as [query|] eqn:LQ; simpl; [|left; reflexivity].
  destruct qe as [e|]; simpl; [|left; reflexivity].
  unfold ret; simpl.
  destruct (chat_method w e) as [chat|] eqn:LC; simpl; [|left; reflexivity].
  destruct (query (String c q')) eqn:EQ; simpl;
    destruct (chat (String c q')) eqn:EC; simpl; try (left; reflexivity).
  right. repeat split; try discriminate.
  exists se, e, a, a0. rewrite LQ, LC. simpl. auto.
Qed.

End QuestionLast.

(** With an index missing, the first thing the build does is the fetch. *)
Lemma process_data_fetches (w : World) (user repo : option string)
    (excluded_dirs : list string) (b : string)
    (transformations : list Transformation) (s : SessionState)
    (tr : list Event) :
  index s = None \/ summary s = None ->
  exists reader evs,
    trace (snd (process_data w user repo excluded_dirs b transformations
                  (mkStore s tr)))
    = tr ++ Ev_load_data reader b :: evs.
Proof.
  intros Missing.
  assert (G : is_None (index s) || is_None (summary s) = true).
  { destruct Missing as [-> | ->]; [reflexivity|].
    destruct (index s); reflexivity. }
  unfold process_data, load_documents, create_index, create_summary.
  unfold_script. rewrite G.
  destruct (load_data w _ b) as [documents|e]; simpl; [|eauto].
  destruct (VectorStoreIndex_from_documents w documents true
              (Some transformations)) as [i|e]; simpl;
    destruct (SummaryIndex_from_documents w documents true None) as [m|e'];
    simpl; rewrite <- !app_assoc; simpl; eauto.
Qed.

(** ** Runs and sessions *)

Section Runs.
Context {checks : UrlChecks}.
Variable constant : Constants.

Lemma run_main_step (w : World) (widgets : Widgets) (s : SessionState) :
  let r := run_main constant w widgets s in
  session_step s (snd (fst r)) /\ Forall (event_allowed s) (snd r).
Proof.
  unfold run_main.
  pose proof (main_step constant w widgets (mkStore s [])) as [S (evs & T & F)].
  destruct (main constant w widgets (mkStore s [])) as [o st]; simpl in *.
  split; [exact S|]. rewrite T. exact F.
Qed.

Lemma run_main_events (w : World) (widgets : Widgets) (s : SessionState) :
  Forall (script_event constant widgets) (snd (run_main constant w widgets s)).
Proof.
  unfold run_main.
  pose proof (main_events constant w widgets (mkStore s [])) as (evs & T & F).
  destruct (main constant w widgets (mkStore s [])) as [o st]; simpl in *.
  rewrite T. exact F.
Qed.

Lemma run_session_step (runs : list (World * Widgets)) (s : SessionState) :
  let r := run_session constant runs s in
  session_step s (fst r) /\ Forall (event_allowed s) (snd r).
Proof.
  revert s. induction runs as [|[w widgets] rest IH]; intros s; simpl.
  - split; [apply session_step_refl|constructor].
  - pose proof (run_main_step w widgets s) as [S1 F1].
    destruct (run_main constant w widgets s) as [[o s1] evs1]; simpl in *.
    specialize (IH s1). destruct (run_session constant rest s1) as [s2 evs2].
    simpl in *. destruct IH as [S2 F2]. split.
    + eapply session_step_trans; eauto.
    + apply Forall_app. split; [exact F1|].
      eapply Forall_impl; [|exact F2].
      intros ev. apply event_allowed_earlier. exact S1.
Qed.

(** A run on an initialised session leaves the chat history as it was, or
    returns normally after both engine calls returned and has added the
    one entry for the question; the engines that answered are the stored
    ones, when the session had them. *)
Lemma run_main_history (w : World) (widgets : Widgets) (s : SessionState) :
  has_github_client s = true ->
  let q := question_input widgets in
  let r := run_main constant w widgets s in
  chat_history (snd (fst r)) = chat_history s
  \/ (fst (fst r) = Return tt
      /\ submit_question widgets = true
      /\ q <> EmptyString
      /\ exists summary_engine engine summary_text a,
           (summary_query_engine s <> None ->
            summary_query_engine s = Some summary_engine)
           /\ (query_engine s <> None -> query_engine s = Some engine)
           /\ engine_query w summary_engine q = Return summary_text
           /\ engine_chat w engine q = Return a
           /\ chat_history (snd (fst r)) = chat_history s ++ [mkEntry q a]).
Proof.
  intros H q. unfold run_main.
  destruct (main_question_last constant w widgets (mkStore s []))
    as (st1 & [[S _] K] & D).
  destruct (K H) as [H1 E1]. simpl in E1, S.
  destruct (S H) as (_ & _ & _ & Qk & Mk & _).
  destruct D as [D|D].
  - left. destruct (main constant w widgets (mkStore s [])) as [o st].
    simpl in *. subst st. exact E1.
  - rewrite D.
    pose proof (submit_question_block_cases w widgets st1) as C.
    destruct (submit_question_block w widgets st1) as [o st]; simpl in *.
    destruct C as [C|(O & Sb & Q & se & e & t & a & Em & Eq & EQ & EC & C)].
    + left. rewrite C. exact E1.
    + right. repeat split; auto. exists se, e, t, a.
      split; [intros N; rewrite <- (Mk N); exact Em|].
      split; [intros N; rewrite <- (Qk N); exact Eq|].
      repeat split; auto. rewrite C. simpl. rewrite E1. reflexivity.
Qed.

Lemma ready_fields (s : SessionState) :
  orchestrator_state s = Ready <->
  index s <> None /\ summary s <> None
  /\ query_engine s <> None /\ summary_query_engine s <> None.
Proof.
  unfold orchestrator_state.
  destruct (index s), (summary s), (query_engine s),
    (summary_query_engine s), (github_client s); simpl;
    split; intros H; try discriminate; try reflexivity;
    try (repeat split; discriminate);
    destruct H as (A & B & C & D); congruence.
Qed.

(** A question put to an engine that the session state [s] holds. *)
Definition asked_of_stored_engine (s : SessionState) (ev : Event) : Prop :=
  match ev with
  | Ev_query engine _ => summary_query_engine s = Some engine
  | Ev_chat engine _ => query_engine s = Some engine
  | _ => True
  end.

(** C2 (as amended): a run on a session in the Ready state, whatever
    repository link the user supplies (so also a different one), leaves
    the session Ready with the same indices and the same query engines,
    and runs neither the fetcher, nor an index build, nor an engine
    constructor: the machine is not reset and nothing is rebuilt.  Every
    question the run puts to an engine is put to the engines the session
    already held, those made for the first repository. *)
Theorem ready_session_is_not_reset
    (w : World) (widgets : Widgets) (s : SessionState) :
  has_github_client s = true ->
  orchestrator_state s = Ready ->
  let r := run_main constant w widgets s in
  let s' := snd (fst r) in
  orchestrator_state s' = Ready
  /\ index s' = index s
  /\ summary s' = summary s
  /\ query_engine s' = query_engine s
  /\ summary_query_engine s' = summary_query_engine s
  /\ Forall (fun ev => is_build_event ev = false
                       /\ is_engine_construction ev = false) (snd r)
  /\ Forall (asked_of_stored_engine s) (snd r).
Proof.
  intros H Rd r s'. apply ready_fields in Rd as (Ni & Ns & Nq & Nm).
  destruct (run_main_step w widgets s) as [S F]. fold r in S, F. fold s' in S.
  destruct (S H) as (_ & _ & I & Q & M & _).
  destruct (I Ni Ns) as [Ei Es].
  assert (Rd' : orchestrator_state s' = Ready).
  { apply ready_fields. rewrite Ei, Es, (Q Nq), (M Nm). auto. }
  repeat split; auto.
  - eapply Forall_impl; [|exact F].
    intros ev A. specialize (A H).
    destruct ev; simpl in *; auto; destruct A; congruence.
  - eapply Forall_impl; [|exact F].
    intros ev A. specialize (A H).
    destruct ev; simpl in *; auto.
    + destruct (summary_query_engine s) as [e'|]; [|congruence].
      rewrite (A e' eq_refl). reflexivity.
    + destruct (query_engine s) as [e'|]; [|congruence].
      rewrite (A e' eq_refl). reflexivity.
Qed.

(** C4 (as amended): once both indices are stored in the session, no later
    run of the script, over any number of interactions, fetches the
    documents or builds an index again; the stored indices stay the same
    objects, an engine that is still to be made is made from the stored
    index, and every question goes to the stored engines.  Until both are
    stored there is no such bound: the build is guarded by "an index is
    missing", so a run that reaches it with an index missing (also when the
    other one is stored, after a build that failed part-way) fetches the
    documents again. *)
Theorem indices_are_built_once
    (runs : list (World * Widgets)) (s : SessionState) :
  has_github_client s = true ->
  index s <> None ->
  summary s <> None ->
  let r := run_session constant runs s in
  index (fst r) = index s
  /\ summary (fst r) = summary s
  /\ Forall (fun ev => is_build_event ev = false) (snd r)
  /\ (forall i, In (Ev_index_as_chat_engine i) (snd r) -> index s = Some i)
  /\ (forall m, In (Ev_summary_as_chat_engine m) (snd r) -> summary s = Some m)
  /\ (forall e e' q, In (Ev_chat e q) (snd r) ->
                     query_engine s = Some e' -> e = e')
  /\ (forall e e' q, In (Ev_query e q) (snd r) ->
                     summary_query_engine s = Some e' -> e = e')
  /\ (forall w user repo excluded_dirs b transformations s0 tr,
        index s0 = None \/ summary s0 = None ->
        exists reader evs,
          trace (snd (process_data w user repo excluded_dirs b transformations
                        (mkStore s0 tr)))
          = tr ++ Ev_load_data reader b :: evs).
Proof.
  intros H Ni Ns r.
  destruct (run_session_step runs s) as [S F]. fold r in S, F.
  destruct (S H) as (_ & _ & I & _). destruct (I Ni Ns) as [Ei Es].
  rewrite Forall_forall in F.
  split; [exact Ei|]. split; [exact Es|]. split.
  { apply Forall_forall. intros ev Hin. specialize (F ev Hin H).
    destruct ev; simpl in *; auto; destruct F; congruence. }
  split.
  { intros i Hin. destruct (F _ Hin H) as [_ X].
    destruct (index s) as [i'|] eqn:E; [|congruence].
    rewrite (X i' eq_refl Ns). reflexivity. }
  split.
  { intros m Hin. destruct (F _ Hin H) as [_ X].
    destruct (summary s) as [m'|] eqn:E; [|congruence].
    rewrite (X m' eq_refl Ni). reflexivity. }
  split; [intros e e' q Hin; exact (F _ Hin H e')|].
  split; [intros e e' q Hin; exact (F _ Hin H e')|].
  intros w user repo excluded_dirs b transformations s0 tr Missing.
  exact (process_data_fetches w user repo excluded_dirs b transformations
           s0 tr Missing).
Qed.

(** C7: when [is_valid_github_url] returns false for the link, the run
    shows the format error and does nothing else with the link: the
    branch that calls [check_github_repo_exists] is not taken and the run
    makes no [requests.get] call. *)
Theorem invalid_link_is_not_checked
    (w : World) (widgets : Widgets) (s : SessionState) :
  is_valid_github_url (github_repo_link widgets) = Return false ->
  (forall st,
      link_block constant w widgets st
      = (Return tt,
         mkStore (session st)
           (trace st ++
            if Str.is_empty (github_repo_link widgets) then []
            else [Ev_st_error
                    "The URL format is incorrect. Please enter a valid GitHub repository URL."])))
  /\ Forall (fun ev => is_requests_get ev = false)
            (snd (run_main constant w widgets s)).
Proof.
  intros V. split.
  - intros [s0 tr]. unfold link_block.
    destruct (Str.is_empty (github_repo_link widgets)); simpl.
    + unfold ret. rewrite app_nil_r. reflexivity.
    + rewrite V. reflexivity.
  - eapply Forall_impl; [|apply run_main_events].
    intros ev X. destruct ev; simpl in *; auto.
    unfold link_passed_validation in X. congruence.
Qed.

(** What the script asks of llama_index in an index build. *)
Definition index_build_as_written (ev : Event) : Prop :=
  match ev with
  | Ev_VectorStoreIndex_from_documents _ _ transformations =>
      transformations = Some [TokenTextSplitter 512 128]
      /\ transformations_applied transformations = [TokenTextSplitter 512 128]
  | Ev_SummaryIndex_from_documents _ _ transformations =>
      transformations = None
      /\ transformations_applied transformations = Settings_transformations
  | _ => True
  end.

(** With an index missing and the documents fetched, both builds are
    requested on these documents. *)
Lemma process_data_builds (w : World) (user repo : option string)
    (excluded_dirs : list string) (b : string)
    (transformations : list Transformation) (s0 : SessionState)
    (tr : list Event) (documents : list Document) :
  index s0 = None \/ summary s0 = None ->
  load_data w
    {| reader_github_client := github_client s0;
       owner := user;
       repo := repo;
       use_parser := true;
       verbose := false;
       filter_directories := (excluded_dirs, EXCLUDE);
       filter_file_extensions := (excluded_file_extensions, EXCLUDE) |} b
  = Return documents ->
  let evs := trace (snd (process_data w user repo excluded_dirs b
                           transformations (mkStore s0 tr))) in
  In (Ev_VectorStoreIndex_from_documents documents true (Some transformations))
     evs
  /\ In (Ev_SummaryIndex_from_documents documents true None) evs.
Proof.
  intros Missing L.
  assert (G : is_None (index s0) || is_None (summary s0) = true).
  { destruct Missing as [-> | ->]; [reflexivity|].
    destruct (index s0); reflexivity. }
  unfold process_data, load_documents, create_index, create_summary.
  unfold_script. rewrite G. simpl. rewrite L. simpl.
  destruct (VectorStoreIndex_from_documents w documents true
              (Some transformations)) as [i|e]; simpl;
    destruct (SummaryIndex_from_documents w documents true None) as [m|e'];
    simpl; rewrite <- !app_assoc; simpl;
    (split; apply in_or_app; right; simpl; auto).
Qed.

(** C8 (as amended): whenever an index is missing and the fetch returns,
    the script requests the retrieval index from the fetched documents with
    the single transformation [TokenTextSplitter(chunk_size=512,
    chunk_overlap=128)], and the summary index from the same documents with
    no [transformations] argument; and no run builds an index in any other
    way.  So the retrieval build runs that token splitter, while the
    summary build is left with the library's own [Settings.transformations]:
    the script does not ask for whole, unsplit documents. *)
Theorem index_builds_as_written
    (w : World) (widgets : Widgets) (s : SessionState) :
  Forall index_build_as_written (snd (run_main constant w widgets s))
  /\ (forall user repo excluded_dirs b s0 tr documents,
        index s0 = None \/ summary s0 = None ->
        load_data w
          {| reader_github_client := github_client s0;
             owner := user;
             repo := repo;
             use_parser := true;
             verbose := false;
             filter_directories := (excluded_dirs, EXCLUDE);
             filter_file_extensions := (excluded_file_extensions, EXCLUDE) |} b
        = Return documents ->
        let evs := trace (snd (process_data w user repo excluded_dirs b
                                 [TokenTextSplitter 512 128] (mkStore s0 tr))) in
        In (Ev_VectorStoreIndex_from_documents documents true
              (Some [TokenTextSplitter 512 128])) evs
        /\ In (Ev_SummaryIndex_from_documents documents true None) evs).
Proof.
  split.
  - eapply Forall_impl; [|apply run_main_events].
    intros ev X. destruct ev; simpl in *; auto.
    + destruct X as (_ & _ & ->). auto.
    + destruct X as (_ & _ & ->). auto.
  - intros user repo excluded_dirs b s0 tr documents Missing L.
    exact (process_data_builds w user repo excluded_dirs b
             [TokenTextSplitter 512 128] s0 tr documents Missing L).
Qed.

End Runs.

(** ** Answering a question *)

Section Answer.
Context {checks : UrlChecks}.
Variable constant : Constants.


(** A question put to an engine. *)
Definition is_engine_call (ev : Event) : bool :=
  match ev with
  | Ev_query _ _ | Ev_chat _ _ => true
  | _ => false
  end.

Section NoQueryMethod.
Variable w : World.
Variable widgets : Widgets.

(** The engines have no [query] attribute, as the chat engines that
    [as_chat_engine(chat_mode=ChatMode.CONTEXT)] returns: they offer [chat],
    and the look-up of [.query] raises [AttributeError]. *)
Hypothesis no_query : forall engine, exists e, query_method w engine = Raise e.

Let quiet (ev : Event) : Prop := is_engine_call ev = false.
Let Q := only_events quiet.
Let Q_refl := only_events_refl quiet.
Let Q_trans := only_events_trans quiet.

Ltac quiet_steps :=
  repeat first
    [ apply (respects_ret Q Q_refl)
    | apply (respects_lift Q Q_refl)
    | apply (respects_read Q Q_refl)
    | apply (respects_result Q Q_refl)
    | apply (respects_attr_of Q Q_refl)
    | apply only_events_write
    | apply only_events_call; reflexivity
    | apply (respects_submit Q)
    | apply (respects_try Q Q_trans)
    | apply (respects_bind Q Q_trans); [|intros ?]
    | match goal with
      | |- respects _ (if ?b then _ else _) => destruct b
      | |- respects _ (let '(_, _) := ?x in _) => destruct x
      end ].

Lemma submit_question_block_quiet :
  respects Q (submit_question_block w widgets).
Proof.
  unfold submit_question_block.
  destruct (submit_question widgets); [|quiet_steps].
  destruct (negb (Str.is_empty (question_input widgets))); [|quiet_steps].
  apply (respects_bind Q Q_trans); [quiet_steps|intros engine_now].
  apply (respects_bind Q Q_trans); [quiet_steps|intros engine].
  apply (respects_bind_lift Q Q_refl). intros query X.
  destruct (no_query engine) as [e N]. congruence.
Qed.

Lemma main_quiet : respects Q (main constant w widgets).
Proof.
  unfold main, set_environ, st_error, init_session_state, link_block,
    check_github_repo_exists, repository_page, make_github_client,
    process_data, load_documents, create_index, create_summary,
    make_query_engines.
  repeat first
    [ apply submit_question_block_quiet
    | apply (respects_ret Q Q_refl)
    | apply (respects_lift Q Q_refl)
    | apply (respects_read Q Q_refl)
    | apply (respects_result Q Q_refl)
    | apply (respects_attr_of Q Q_refl)
    | apply only_events_write
    | apply only_events_call; reflexivity
    | apply (respects_submit Q)
    | apply (respects_try Q Q_trans)
    | apply (respects_bind Q Q_trans); [|intros ?]
    | match goal with
      | |- respects _ (if ?b then _ else _) => destruct b
      | |- respects _ (let '(_, _) := ?x in _) => destruct x
      end ].
Qed.

End NoQueryMethod.

(** C3 (a slip in the code): the question is not dispatched to both
    engines.  Line 228 reads the attribute [query] of the summary engine
    while it evaluates the arguments of [executor.submit], before any task
    is submitted.  When the engine has no such attribute the question block
    raises there: nothing has been put to the summary engine nor to the
    retrieval engine, the session state is as it was and no entry is
    recorded.  When no engine has the attribute, as with the chat engines
    made at lines 190 and 192, no run puts a question to any engine and no
    run of an initialised session changes the chat history. *)
Theorem question_is_not_dispatched_without_query_method
    (w : World) (widgets : Widgets) (s : SessionState) :
  (forall engine, exists e, query_method w engine = Raise e) ->
  (forall tr summary_engine e,
      submit_question widgets = true ->
      question_input widgets <> EmptyString ->
      summary_query_engine s = Some summary_engine ->
      query_method w summary_engine = Raise e ->
      submit_question_block w widgets (mkStore s tr)
      = (Raise e, mkStore s tr))
  /\ (let r := run_main constant w widgets s in
      Forall (fun ev => is_engine_call ev = false) (snd r)
      /\ (has_github_client s = true ->
          chat_history (snd (fst r)) = chat_history s)).
Proof.
  intros no_query. split.
  - intros tr summary_engine e Sb Qn Es N.
    unfold submit_question_block. rewrite Sb.
    destruct (question_input widgets) as [|c q]; [congruence|].
    destruct s as [? ? ? ? qe sqe ?]; simpl in Es; subst sqe.
    unfold_script. unfold ret; simpl. rewrite N. reflexivity.
  - split.
    + unfold run_main.
      pose proof (main_quiet w widgets no_query (mkStore s []))
        as (evs & T & F).
      destruct (main constant w widgets (mkStore s [])) as [o st];
        simpl in *.
      rewrite T. exact F.
    + intros H.
      destruct (run_main_history constant w widgets s H)
        as [Same|(_ & _ & _ & se & engine & t & a & _ & _ & EQ & _)];
        [exact Same|].
      unfold engine_query in EQ. destruct (no_query se) as [e N].
      rewrite N in EQ. discriminate.
Qed.

End Answer.

(** ** The chat history *)

Lemma bind_returns {A B} (m : M A) (k : A -> M B) (st st' : Store) (a : A) :
  m st = (Return a, st') -> bind m k st = k a st'.
Proof. intros E. unfold bind. rewrite E. reflexivity. Qed.

Definition record (ev : Event) (st : Store) : Store :=
  mkStore (session st) (trace st ++ [ev]).

Section History.
Context {checks : UrlChecks}.
Variable constant : Constants.

(** The start of the script goes through: both environment variables are
    set and the two Gemini objects are made. *)
Definition startup_succeeds (w : World) : Prop :=
  os_environ_setitem w "GOOGLE_API_KEY" (Gemini_api constant) = Return tt
  /\ os_environ_setitem w "GITHUB_TOKEN" (github_token constant) = Return tt
  /\ Gemini w = Return tt
  /\ GeminiEmbedding w "models/embedding-001" (Gemini_api constant) = Return tt.

(** The link passes the validator and the existence check: the page
    [https://github.com/<user>/<repo>] answers with status 200. *)
Definition link_accepted (w : World) (link : string) : Prop :=
  is_valid_github_url link = Return true
  /\ exists p user repo,
       urllib_parse.urlparse link = Return p
       /\ Str.split1 (Str.strip (path p) "/") "/" = [user; repo]
       /\ requests_get w ("https://github.com/" ++ user ++ "/" ++ repo)%string
          = Return 200%Z.



Lemma extract_github_details_returns (link : string) (p : ParseResult) :
  urllib_parse.urlparse link = Return p ->
  exists user repo, extract_github_details link = Return (user, repo).
Proof.
  intros E. destruct (extract_github_details_spec link p E) as [A B].
  destruct (Nat.eq_dec (Str.count (Str.strip (path p) "/") "/") 1) as [C|C].
  - destruct (A C) as (u & r & _ & X). eauto.
  - rewrite (B C). eauto.
Qed.

Lemma set_environ_returns (w : World) (key value message : string) (st : Store) :
  os_environ_setitem w key value = Return tt ->
  set_environ w key value message st
  = (Return true, record (Ev_os_environ_setitem key value) st).
Proof.
  intros E. unfold set_environ. unfold_script. rewrite E. reflexivity.
Qed.

Lemma call_returns {A} (ev : Event) (o : outcome A) (a : A) (st : Store) :
  o = Return a -> call ev o st = (Return a, record ev st).
Proof. intros ->. reflexivity. Qed.

Lemma init_session_state_again (st : Store) :
  has_github_client (session st) = true ->
  init_session_state st = (Return tt, st).
Proof.
  intros H. unfold init_session_state. unfold_script. rewrite H. reflexivity.
Qed.

Lemma check_github_repo_exists_accepted (w : World) (link : string) (st : Store) :
  link_accepted w link ->
  exists url, check_github_repo_exists w link st
              = (Return true, record (Ev_requests_get url) st).
Proof.
  intros (_ & p & user & repo & P & Sp & G).
  exists ("https://github.com/" ++ user ++ "/" ++ repo)%string.
  unfold check_github_repo_exists, try_except_ValueError, bind, lift.
  rewrite P, Sp. cbn [unpack2]. unfold call, ret. rewrite G. reflexivity.
Qed.

Lemma make_github_client_again (w : World) (st : Store) :
  github_client (session st) <> None ->
  make_github_client constant w st = (Return tt, st).
Proof.
  intros N. unfold make_github_client. unfold_script.
  destruct (github_client (session st)); [reflexivity|congruence].
Qed.



Lemma link_not_empty (link : string) :
  is_valid_github_url link = Return true -> Str.is_empty link = false.
Proof.
  destruct link; [|reflexivity]. intros V. vm_compute in V. discriminate.
Qed.




End History.

(** ** The existence check and the fetcher *)

Section Fetch.
Context {checks : UrlChecks}.

(** C10: for a URL whose path, once the leading and trailing slashes are
    stripped, has no "/", [check_github_repo_exists] returns false: the
    ValueError of the failed unpacking is caught, nothing is raised and no
    request is made. *)
Theorem check_github_repo_exists_without_separator
    (w : World) (url : string) (p : ParseResult) (st : Store) :
  urllib_parse.urlparse url = Return p ->
  Str.count (Str.strip (path p) "/") "/" = 0 ->
  check_github_repo_exists w url st = (Return false, st).
Proof.
  intros P C.
  unfold check_github_repo_exists, try_except_ValueError, bind, lift.
  rewrite P, (split1_no_separator _ _ C). reflexivity.
Qed.

(** The same holds when [urlparse] itself raises ValueError. *)
Lemma check_github_repo_exists_unparsable
    (w : World) (url : string) (st : Store) :
  urllib_parse.urlparse url = Raise ValueError ->
  check_github_repo_exists w url st = (Return false, st).
Proof.
  intros P.
  unfold check_github_repo_exists, try_except_ValueError, bind, lift.
  rewrite P. reflexivity.
Qed.

Lemma mem_false_not_In (x : string) (xs : list string) :
  Str.mem x xs = false -> ~ In x xs.
Proof.
  unfold Str.mem. intros H Hin.
  assert (existsb (String.eqb x) xs = true).
  { apply existsb_exists. exists x. split; [exact Hin|apply String.eqb_refl]. }
  congruence.
Qed.

(** C5: whatever the repository and whatever directories the caller
    excludes, [load_documents] asks the reader to exclude the eight
    extensions, so with a reader that honours its extension filter no
    document it returns comes from a file with one of these extensions. *)
Theorem load_documents_excludes_extensions
    (w : World) (client : option GithubClient) (user repo : option string)
    (excluded_dirs : list string) (branch : string) (st st' : Store)
    (documents : list Document) :
  honours_extension_filter w ->
  load_documents w client user repo excluded_dirs branch st
  = (Return documents, st') ->
  forall d, In d documents ->
    ~ In (get_file_extension (file_path d))
         [".png"; ".jpg"; ".jpeg"; ".gif"; ".svg"; ".ico"; ".pdf"; ".csv"].
Proof.
  intros Hw L d Hin. unfold load_documents, call in L.
  injection L as L _.
  apply mem_false_not_In.
  exact (Hw _ _ _ L eq_refl d Hin).
Qed.

(** The reference reader honours its extension filter. *)
Lemma reference_reader_honours_extension_filter
    (files : list Document) (reply : string -> string) :
  honours_extension_filter (example_world files reply).
Proof.
  intros reader b documents L X d Hin. simpl in L.
  unfold ReferenceReader.load_data in L. injection L as <-.
  apply filter_In in Hin as [_ K].
  unfold ReferenceReader.keeps_file in K.
  apply andb_true_iff in K as [_ K].
  unfold ReferenceReader.check_filter_file_extensions in K.
  destruct (filter_file_extensions reader) as [extensions filter_type].
  simpl in *. subst filter_type.
  apply negb_true_iff in K. exact K.
Qed.

End Fetch.

(** ** Concrete runs *)

#[local] Existing Instance lenient_checks.

Lemma count_append (s1 s2 : string) (c : ascii) :
  Str.count (s1 ++ s2)%string c = Str.count s1 c + Str.count s2 c.
Proof.
  induction s1 as [|a r IH]; simpl; [reflexivity|].
  rewrite IH. lia.
Qed.

(** The path the specification asks of a repository link: one owner
    segment and one repo segment, with the one separator between them. *)
Definition owner_repo_path (path : string) : Prop :=
  exists owner repo,
    owner <> EmptyString /\ repo <> EmptyString
    /\ Str.count owner "/" = 0 /\ Str.count repo "/" = 0
    /\ path = ("/" ++ owner ++ "/" ++ repo)%string.

(** C1, as the specification states it, fails on
    [https://github.com/a/b/c]: the path has three segments, and the
    validator returns true. *)
Lemma validator_accepts_longer_path :
  let url := "https://github.com/a/b/c" in
  urllib_parse.urlparse url
  = Return (mkParseResult "https" "github.com" "/a/b/c" "" "" "")
  /\ ~ owner_repo_path "/a/b/c"
  /\ is_valid_github_url url = Return true.
Proof.
  split; [reflexivity|]. split; [|reflexivity].
  intros (owner & repo & _ & _ & Co & Cr & E).
  apply (f_equal (fun s => Str.count s "/")) in E.
  change ("/" ++ owner ++ "/" ++ repo)%string
    with (String "/" (owner ++ String "/" repo))%string in E.
  simpl in E. rewrite count_append in E. simpl in E. lia.
Qed.

Lemma is_valid_github_url_rejects_witness :
  is_valid_github_url "https://not-github.com/foo/bar" = Return false
  /\ is_valid_github_url "https://github.com/octocat/Hello-World" = Return true.
Proof.
  split.
  - apply (proj1 (is_valid_github_url_rejects "https://not-github.com/foo/bar"
                    (mkParseResult "https" "not-github.com" "/foo/bar" "" "" "")
                    eq_refl)).
    intros (_ & N & _). discriminate N.
  - apply (proj2 (is_valid_github_url_rejects
                    "https://github.com/octocat/Hello-World"
                    (mkParseResult "https" "github.com" "/octocat/Hello-World"
                       "" "" "")
                    eq_refl)).
    split; [right; reflexivity|]. split; [reflexivity|]. eexists. reflexivity.
Defined.

(** C9: the validator accepts [https://github.com/a/b/c], for which
    [extract_github_details] returns [(None, None)]; when the page exists,
    a run of the script on that link calls the fetcher with owner and repo
    both [None]. *)
Theorem validated_link_reaches_fetcher_without_owner :
  exists (link : string) (w : World) (widgets : Widgets),
    github_repo_link widgets = link
    /\ Str.count (Str.strip "/a/b/c" "/") "/" = 2
    /\ is_valid_github_url link = Return true
    /\ extract_github_details link = Return (None, None)
    /\ exists reader b,
         In (Ev_load_data reader b)
            (snd (run_main example_constants w widgets new_session))
         /\ owner reader = None
         /\ repo reader = None.
Proof.
  exists "https://github.com/a/b/c".
  exists (example_world hello_world_files echo_reply).
  exists (ask "https://github.com/a/b/c" "What does this repository do?").
  split; [reflexivity|]. split; [reflexivity|].
  split; [reflexivity|]. split; [reflexivity|].
  eexists. eexists. split.
  - vm_compute. do 6 right. left. reflexivity.
  - split; reflexivity.
Qed.

Lemma check_github_repo_exists_without_separator_witness :
  check_github_repo_exists (example_world hello_world_files echo_reply)
    "https://github.com/foo" (mkStore new_session [])
  = (Return false, mkStore new_session []).
Proof.
  apply (check_github_repo_exists_without_separator
           (example_world hello_world_files echo_reply)
           "https://github.com/foo"
           (mkParseResult "https" "github.com" "/foo" "" "" "")).
  - reflexivity.
  - reflexivity.
Defined.

Definition hello_world_link : string := "https://github.com/octocat/Hello-World".
Definition linux_link : string := "https://github.com/torvalds/linux".

Definition hello_world : World := example_world hello_world_files echo_reply.
Definition linux : World := example_world linux_files echo_reply.

(** The session after a first run on the Hello-World repository. *)
Definition hello_world_session : SessionState :=
  snd (fst (run_main example_constants hello_world
              (ask hello_world_link "What does this repository do?")
              new_session)).

Example hello_world_session_is_ready :
  orchestrator_state hello_world_session = Ready
  /\ index hello_world_session = Some (VectorStoreIndex_object 3)
  /\ chat_history hello_world_session
     = [mkEntry "What does this repository do?"
                "Answer to: What does this repository do?"].
Proof. vm_compute. auto. Qed.

(** C2, as the specification states it, fails: the session is Ready for
    octocat/Hello-World, the user supplies the link of torvalds/linux, which
    is valid, exists and names another repository, and the run leaves the
    session Ready (not Empty), with the index built from the three
    Hello-World documents, and makes no call to the fetcher or to an index
    builder; the question about linux goes to the Hello-World engines. *)
Lemma new_link_reuses_old_indices :
  let r := run_main example_constants linux
             (ask linux_link "Where is fork?") hello_world_session in
  extract_github_details hello_world_link
  = Return (Some "octocat", Some "Hello-World")
  /\ extract_github_details linux_link = Return (Some "torvalds", Some "linux")
  /\ orchestrator_state hello_world_session = Ready
  /\ orchestrator_state (snd (fst r)) = Ready
  /\ orchestrator_state (snd (fst r)) <> Empty
  /\ index (snd (fst r)) = index hello_world_session
  /\ summary (snd (fst r)) = summary hello_world_session
  /\ existsb is_build_event (snd r) = false
  /\ snd r
     = [Ev_os_environ_setitem "GOOGLE_API_KEY" "gemini-key";
        Ev_os_environ_setitem "GITHUB_TOKEN" "github-token";
        Ev_Gemini;
        Ev_GeminiEmbedding "models/embedding-001" "gemini-key";
        Ev_requests_get "https://github.com/torvalds/linux";
        Ev_query (ChatEngine_object 7) "Where is fork?";
        Ev_chat (ChatEngine_object 6) "Where is fork?"].
Proof. vm_compute. repeat split; discriminate. Qed.

Lemma ready_session_is_not_reset_witness :
  let r := run_main example_constants linux
             (ask linux_link "Where is fork?") ready_session in
  orchestrator_state (snd (fst r)) = Ready
  /\ index (snd (fst r)) = Some (VectorStoreIndex_object 3)
  /\ Forall (asked_of_stored_engine ready_session) (snd r).
Proof.
  destruct (ready_session_is_not_reset example_constants linux
              (ask linux_link "Where is fork?") ready_session
              eq_refl eq_refl) as (R & I & _ & _ & _ & _ & A).
  split; [exact R|]. split; [exact I|exact A].
Defined.

Lemma indices_are_built_once_witness :
  let r := run_session example_constants
             [(hello_world, ask hello_world_link "What is it?");
              (linux, ask linux_link "Where is fork?")]
             ready_session in
  index (fst r) = Some (VectorStoreIndex_object 3)
  /\ Forall (fun ev => is_build_event ev = false) (snd r).
Proof.
  destruct (indices_are_built_once example_constants
              [(hello_world, ask hello_world_link "What is it?");
               (linux, ask linux_link "Where is fork?")]
              ready_session eq_refl
              ltac:(discriminate) ltac:(discriminate)) as (I & _ & F & _).
  split; [exact I|exact F].
Defined.

Lemma invalid_link_is_not_checked_witness :
  Forall (fun ev => is_requests_get ev = false)
    (snd (run_main example_constants hello_world
            (ask "https://not-github.com/foo/bar" "What is it?") new_session)).
Proof.
  exact (proj2 (invalid_link_is_not_checked example_constants hello_world
                  (ask "https://not-github.com/foo/bar" "What is it?")
                  new_session eq_refl)).
Defined.

Lemma load_documents_excludes_extensions_witness :
  let r := load_documents hello_world None (Some "octocat") (Some "Hello-World")
             ["docs"] "master" (mkStore new_session []) in
  fst r = Return [mkDocument "README" "Hello World!";
                  mkDocument "src/hello.py" "print('hello')"]
  /\ ~ In (get_file_extension "src/hello.py")
          [".png"; ".jpg"; ".jpeg"; ".gif"; ".svg"; ".ico"; ".pdf"; ".csv"].
Proof.
  split; [reflexivity|].
  apply (load_documents_excludes_extensions hello_world None
           (Some "octocat") (Some "Hello-World") ["docs"] "master"
           (mkStore new_session []) _ _
           (reference_reader_honours_extension_filter hello_world_files echo_reply)
           eq_refl (mkDocument "src/hello.py" "print('hello')")).
  right. left. reflexivity.
Defined.



(** A run that builds both indices: the retrieval index is asked for with
    the splitter, the summary index without. *)
Example index_builds_in_first_run :
  let evs := snd (run_main example_constants hello_world
                    (ask hello_world_link "What is it?") new_session) in
  let documents := [mkDocument "README" "Hello World!";
                    mkDocument "docs/guide.md" "How to say hello";
                    mkDocument "src/hello.py" "print('hello')"] in
  In (Ev_VectorStoreIndex_from_documents documents true
        (Some [TokenTextSplitter 512 128])) evs
  /\ In (Ev_SummaryIndex_from_documents documents true None) evs.
Proof. vm_compute. split; [do 7 right|do 8 right]; left; reflexivity. Qed.

(** The world of [hello_world] with a summary build that fails. *)
Definition failing_summary_world : World :=
  {| os_environ_setitem := os_environ_setitem hello_world;
     Gemini := Gemini hello_world;
     GeminiEmbedding := GeminiEmbedding hello_world;
     requests_get := requests_get hello_world;
     GithubClient_new := GithubClient_new hello_world;
     load_data := load_data hello_world;
     VectorStoreIndex_from_documents :=
       VectorStoreIndex_from_documents hello_world;
     SummaryIndex_from_documents := fun _ _ _ => Raise OtherError;
     index_as_chat_engine := index_as_chat_engine hello_world;
     summary_as_chat_engine := summary_as_chat_engine hello_world;
     query_method := query_method hello_world;
     chat_method := chat_method hello_world |}.

(** C4, as the specification states it, fails.  In a session that starts
    empty, the summary build of the first run raises: the run ends with the
    retrieval index stored and no summary index.  The next run, on the same
    link, finds an index missing and fetches the documents and builds both
    indices again: in one session the fetch and the retrieval build have
    run twice each, and the summary build twice. *)
Lemma failed_build_is_repeated :
  let documents := [mkDocument "README" "Hello World!";
                    mkDocument "docs/guide.md" "How to say hello";
                    mkDocument "src/hello.py" "print('hello')"] in
  let reader :=
    {| reader_github_client := Some (mkGithubClient "github-token" true);
       owner := Some "octocat";
       repo := Some "Hello-World";
       use_parser := true;
       verbose := false;
       filter_directories := ([], EXCLUDE);
       filter_file_extensions := (excluded_file_extensions, EXCLUDE) |} in
  let first := run_main example_constants failing_summary_world
                 (ask hello_world_link "What is it?") new_session in
  let r := run_session example_constants
             [(failing_summary_world, ask hello_world_link "What is it?");
              (hello_world, ask hello_world_link "What is it?")]
             new_session in
  fst (fst first) = Raise OtherError
  /\ index (snd (fst first)) = Some (VectorStoreIndex_object 3)
  /\ summary (snd (fst first)) = None
  /\ filter is_build_event (snd r)
     = [Ev_load_data reader "master";
        Ev_VectorStoreIndex_from_documents documents true
          (Some [TokenTextSplitter 512 128]);
        Ev_SummaryIndex_from_documents documents true None;
        Ev_load_data reader "master";
        Ev_VectorStoreIndex_from_documents documents true
          (Some [TokenTextSplitter 512 128]);
        Ev_SummaryIndex_from_documents documents true None]
  /\ orchestrator_state (fst r) = Ready.
Proof. vm_compute. repeat split. Qed.

(** C8, as the specification states it, fails: the summary index is not
    built without a chunking transformation.  In a first run the summary
    build is requested with no [transformations] argument, and
    [from_documents] then runs the library's own transformations, which
    hold its default node parser: the list is not empty. *)
Lemma summary_build_runs_default_transformations :
  let evs := snd (run_main example_constants hello_world
                    (ask hello_world_link "What is it?") new_session) in
  let documents := [mkDocument "README" "Hello World!";
                    mkDocument "docs/guide.md" "How to say hello";
                    mkDocument "src/hello.py" "print('hello')"] in
  In (Ev_SummaryIndex_from_documents documents true None) evs
  /\ (forall ts, In (Ev_SummaryIndex_from_documents documents true ts) evs ->
                 transformations_applied ts = [Settings_node_parser])
  /\ transformations_applied None <> [].
Proof.
  vm_compute. split; [do 8 right; left; reflexivity|].
  split; [|discriminate].
  intros ts H.
  repeat (destruct H as [H|H]; [try discriminate H|]);
    try contradiction;
    injection H as <-; reflexivity.
Qed.

Lemma index_builds_as_written_witness :
  let evs := trace (snd (process_data hello_world
                           (Some "octocat") (Some "Hello-World") [] "master"
                           [TokenTextSplitter 512 128]
                           (mkStore new_session []))) in
  let documents := [mkDocument "README" "Hello World!";
                    mkDocument "docs/guide.md" "How to say hello";
                    mkDocument "src/hello.py" "print('hello')"] in
  In (Ev_VectorStoreIndex_from_documents documents true
        (Some [TokenTextSplitter 512 128])) evs
  /\ In (Ev_SummaryIndex_from_documents documents true None) evs.
Proof.
  exact (proj2 (index_builds_as_written example_constants hello_world
                  (ask hello_world_link "What is it?") new_session)
           (Some "octocat") (Some "Hello-World") [] "master" new_session []
           [mkDocument "README" "Hello World!";
            mkDocument "docs/guide.md" "How to say hello";
            mkDocument "src/hello.py" "print('hello')"]
           (or_introl eq_refl) eq_refl).
Defined.

(** The world of [hello_world] with chat engines as llama_index makes them:
    they have a [chat] method and no [query] attribute. *)
Definition context_chat_world : World :=
  {| os_environ_setitem := os_environ_setitem hello_world;
     Gemini := Gemini hello_world;
     GeminiEmbedding := GeminiEmbedding hello_world;
     requests_get := requests_get hello_world;
     GithubClient_new := GithubClient_new hello_world;
     load_data := load_data hello_world;
     VectorStoreIndex_from_documents :=
       VectorStoreIndex_from_documents hello_world;
     SummaryIndex_from_documents := SummaryIndex_from_documents hello_world;
     index_as_chat_engine := index_as_chat_engine hello_world;
     summary_as_chat_engine := summary_as_chat_engine hello_world;
     query_method := fun _ => Raise OtherError;
     chat_method := chat_method hello_world |}.

(** A first run with a question, in that world: everything is built, the
    run ends in the exception of line 228, no question has reached an
    engine and the history is empty. *)
Example question_in_first_run_raises :
  let r := run_main example_constants context_chat_world
             (ask hello_world_link "What is it?") new_session in
  fst (fst r) = Raise OtherError
  /\ orchestrator_state (snd (fst r)) = Ready
  /\ chat_history (snd (fst r)) = []
  /\ existsb is_engine_call (snd r) = false.
Proof. vm_compute. auto. Qed.

Lemma question_is_not_dispatched_without_query_method_witness :
  let widgets := ask hello_world_link "What is it?" in
  let r := run_main example_constants context_chat_world widgets
             ready_session in
  submit_question_block context_chat_world widgets (mkStore ready_session [])
  = (Raise OtherError, mkStore ready_session [])
  /\ Forall (fun ev => is_engine_call ev = false) (snd r)
  /\ chat_history (snd (fst r)) = [].
Proof.
  destruct (question_is_not_dispatched_without_query_method
              example_constants context_chat_world
              (ask hello_world_link "What is it?") ready_session
              (fun engine => ex_intro _ OtherError eq_refl)) as [B [F K]].
  split; [|split].
  - exact (B [] (ChatEngine_object 7) OtherError eq_refl
             ltac:(discriminate) eq_refl eq_refl).
  - exact F.
  - exact (K eq_refl).
Defined.

(** * Further properties of [app.py] *)

(** ** More on strings *)

Lemma cut_parts (s : string) (c : ascii) (h t : string) :
  Str.cut s c = Some (h, t) ->
  s = (h ++ String c t)%string /\ Str.count h c = 0.
Proof.
  revert h t. induction s as [|a r IH]; simpl; intros h t E; [discriminate|].
  destruct (Ascii.eqb a c) eqn:A.
  - injection E as <- <-. apply Ascii.eqb_eq in A. subst a. auto.
  - destruct (Str.cut r c) as [[h' t']|]; [|discriminate].
    injection E as <- <-. destruct (IH h' t' eq_refl) as [-> C].
    simpl. rewrite A. auto.
Qed.

Lemma contains_count (c : ascii) (s : string) :
  Str.contains c s = false <-> Str.count s c = 0.
Proof.
  induction s as [|a r IH]; simpl; [tauto|].
  destruct (Ascii.eqb a c); simpl; [split; discriminate|exact IH].
Qed.

Lemma lstrip_head (s chars : string) (a : ascii) (r : string) :
  Str.lstrip s chars = String a r -> Str.contains a chars = false.
Proof.
  induction s as [|b s' IH]; simpl; [discriminate|].
  destruct (Str.contains b chars) eqn:B; [exact IH|].
  intros E. injection E as <- _. exact B.
Qed.

Lemma rstrip_head (s chars : string) (a : ascii) (r : string) :
  Str.rstrip s chars = String a r -> exists r', s = String a r'.
Proof.
  destruct s as [|b s']; simpl; [discriminate|].
  destruct (Str.is_empty (Str.rstrip s' chars) && Str.contains b chars);
    [discriminate|].
  intros E. injection E as <- _. eauto.
Qed.

Lemma rstrip_last (s chars : string) (h : string) (a : ascii) :
  Str.rstrip s chars = (h ++ String a EmptyString)%string ->
  Str.contains a chars = false.
Proof.
  revert h. induction s as [|b s' IH]; simpl; intros h E.
  - destruct h; discriminate.
  - destruct (Str.is_empty (Str.rstrip s' chars) && Str.contains b chars) eqn:X.
    + destruct h; discriminate.
    + destruct h as [|b' h']; simpl in E; injection E as -> E.
      * rewrite E in X. simpl in X. exact X.
      * exact (IH h' E).
Qed.

(** [s.strip(chars)] neither begins nor ends with one of [chars]. *)
Lemma strip_head (s chars : string) (a : ascii) (r : string) :
  Str.strip s chars = String a r -> Str.contains a chars = false.
Proof.
  unfold Str.strip. intros E.
  destruct (rstrip_head _ _ _ _ E) as [r' L].
  exact (lstrip_head _ _ _ _ L).
Qed.

Lemma strip_last (s chars : string) (h : string) (a : ascii) :
  Str.strip s chars = (h ++ String a EmptyString)%string ->
  Str.contains a chars = false.
Proof. unfold Str.strip. apply rstrip_last. Qed.

Lemma slash_in_slash : Str.contains "/" "/" = true.
Proof. reflexivity. Qed.

(** ** [extract_github_details] *)

Section ExtractProperties.
Context {checks : UrlChecks}.

(** X1: on a URL that [urlparse] accepts, [extract_github_details] returns
    either [(None, None)] or both names, never one without the other; and
    when it returns names, neither is empty, neither contains "/", and
    [user/repo] is the path of the URL without its leading and trailing
    slashes. *)
Theorem extract_github_details_names
    (url : string) (p : ParseResult)
    (result : option string * option string) :
  urllib_parse.urlparse url = Return p ->
  extract_github_details url = Return result ->
  result = (None, None)
  \/ exists user repo,
       result = (Some user, Some repo)
       /\ user <> EmptyString
       /\ repo <> EmptyString
       /\ Str.count user "/" = 0
       /\ Str.count repo "/" = 0
       /\ Str.strip (path p) "/" = (user ++ "/" ++ repo)%string.
Proof.
  intros P E. unfold extract_github_details in E. rewrite P in E.
  cbn [outcome_bind] in E.
  destruct (Nat.eqb (Str.count (Str.strip (path p) "/") "/") 1) eqn:C;
    [|left; congruence].
  right. apply Nat.eqb_eq in C.
  unfold Str.split1 in E.
  destruct (Str.cut (Str.strip (path p) "/") "/") as [[h t]|] eqn:K;
    [|discriminate].
  cbn [unpack2 outcome_bind] in E. injection E as <-.
  destruct (cut_parts _ _ _ _ K) as [S Ch].
  assert (Ct : Str.count t "/" = 0).
  { rewrite S, count_append in C. simpl in C. lia. }
  exists h, t. split; [reflexivity|]. split.
  { intros ->. simpl in S.
    pose proof (strip_head _ _ _ _ S) as X. rewrite slash_in_slash in X.
    discriminate. }
  split.
  { intros ->.
    pose proof (strip_last _ _ _ _ S) as X. rewrite slash_in_slash in X.
    discriminate. }
  auto.
Qed.

End ExtractProperties.

(** ** [check_github_repo_exists] *)

Section ExistenceCheck.
Context {checks : UrlChecks}.
Variable w : World.

(** X2: whatever the URL and whatever the libraries do,
    [check_github_repo_exists] does not let a ValueError escape (it returns
    a boolean, or raises an exception of another class), makes at most one
    [requests.get] call and leaves the session state as it is. *)
Theorem check_github_repo_exists_contains_ValueError
    (url : string) (st : Store) :
  let r := check_github_repo_exists w url st in
  ((exists found, fst r = Return found) \/ fst r = Raise OtherError)
  /\ session (snd r) = session st
  /\ (trace (snd r) = trace st
      \/ exists requested, trace (snd r) = trace st ++ [Ev_requests_get requested]).
Proof.
  unfold check_github_repo_exists, try_except_ValueError, bind, lift, call, ret.
  destruct (urllib_parse.urlparse url) as [p|[|]]; simpl; eauto 6.
  destruct (unpack2 (Str.split1 (Str.strip (path p) "/") "/"))
    as [[user repo]|[|]]; simpl; eauto 6.
  destruct (requests_get w _) as [code|[|]]; simpl; eauto 7.
Qed.

(** X3: when the path of the URL, without its leading and trailing
    slashes, has a "/", the check requests
    [https://github.com/<that path>], whatever the scheme, host, query and
    fragment of the URL are; it returns whether the status code is 200,
    returns false when the request raises a ValueError and lets any other
    exception through. *)
Theorem check_github_repo_exists_request
    (url : string) (p : ParseResult) (st : Store) :
  urllib_parse.urlparse url = Return p ->
  Str.count (Str.strip (path p) "/") "/" <> 0 ->
  let api_url := ("https://github.com/" ++ Str.strip (path p) "/")%string in
  check_github_repo_exists w url st
  = (match requests_get w api_url with
     | Return status_code => Return (Z.eqb status_code 200)
     | Raise ValueError => Return false
     | Raise OtherError => Raise OtherError
     end,
     mkStore (session st) (trace st ++ [Ev_requests_get api_url])).
Proof.
  intros P C api_url.
  destruct (count_pos_cut _ _ C) as (h & t & K).
  destruct (cut_parts _ _ _ _ K) as [S _].
  unfold check_github_repo_exists, try_except_ValueError, bind, lift, call, ret.
  rewrite P. unfold Str.split1. rewrite K. cbn [unpack2].
  replace ("https://github.com/" ++ h ++ "/" ++ t)%string with api_url
    by (unfold api_url; rewrite S; reflexivity).
  destruct (requests_get w api_url) as [code|[|]]; reflexivity.
Qed.

End ExistenceCheck.

(** ** The excluded directories, lines 163-171 *)

Lemma cut_shorter (s : string) (c : ascii) (h t : string) :
  Str.cut s c = Some (h, t) ->
  String.length t < String.length s /\ Str.count s c = S (Str.count t c).
Proof.
  intros K. destruct (cut_parts _ _ _ _ K) as [-> C].
  rewrite count_append, C. simpl. rewrite Ascii.eqb_refl.
  split; [|reflexivity].
  clear. induction h; simpl; lia.
Qed.

Lemma split_fuel_pieces (n : nat) (s : string) (c : ascii) :
  String.length s <= n ->
  List.length (Str.split_fuel n s c) = S (Str.count s c)
  /\ Forall (fun piece => Str.count piece c = 0) (Str.split_fuel n s c).
Proof.
  revert s. induction n as [|n IH]; intros s L; simpl.
  - destruct s; [|simpl in L; lia]. simpl. auto.
  - destruct (Str.cut s c) as [[h t]|] eqn:K.
    + destruct (cut_shorter _ _ _ _ K) as [Lt C].
      destruct (cut_parts _ _ _ _ K) as [_ Ch].
      destruct (IH t ltac:(lia)) as [Ln F].
      simpl. rewrite Ln, C. auto.
    + assert (Str.count s c = 0) as ->.
      { destruct (Nat.eq_dec (Str.count s c) 0) as [Z|Z]; [exact Z|].
        destruct (count_pos_cut _ _ Z) as (h & t & K'). congruence. }
      simpl. split; [reflexivity|]. constructor; [|constructor].
      destruct (Nat.eq_dec (Str.count s c) 0) as [Z|Z]; [exact Z|].
      destruct (count_pos_cut _ _ Z) as (h & t & K'). congruence.
Qed.

Lemma whitespace_not_empty (ws : string) :
  In ws Str.whitespace -> ws <> EmptyString.
Proof.
  intros H E. subst ws. vm_compute in H.
  repeat (destruct H as [H|H]; [discriminate H|]). exact H.
Qed.

Lemma mem_In (x : string) (xs : list string) :
  In x xs -> Str.mem x xs = true.
Proof.
  intros H. unfold Str.mem. apply existsb_exists.
  exists x. split; [exact H|apply String.eqb_refl].
Qed.

Lemma after_prefix_parts (p s r : string) :
  Str.after_prefix p s = Some r -> s = (p ++ r)%string.
Proof.
  revert s. induction p as [|a p IH]; intros s; simpl.
  - intros E. injection E as ->. reflexivity.
  - destruct s as [|b s]; [discriminate|].
    destruct (Ascii.eqb a b) eqn:A; [|discriminate].
    apply Ascii.eqb_eq in A. subst b. intros E. rewrite (IH _ E). reflexivity.
Qed.

Lemma after_prefix_append (p r : string) :
  Str.after_prefix p (p ++ r) = Some r.
Proof.
  induction p as [|a p IH]; simpl; [reflexivity|].
  rewrite Ascii.eqb_refl. exact IH.
Qed.

Lemma after_one_of_parts (ps : list string) (s r : string) :
  Str.after_one_of ps s = Some r ->
  exists p, In p ps /\ s = (p ++ r)%string.
Proof.
  induction ps as [|p ps IH]; simpl; [discriminate|].
  destruct (Str.after_prefix p s) as [r'|] eqn:A.
  - intros E. injection E as ->. exists p.
    split; [left; reflexivity|exact (after_prefix_parts _ _ _ A)].
  - intros E. destruct (IH E) as (p' & I & S). exists p'. auto.
Qed.

Lemma after_one_of_append (ps : list string) (p r : string) :
  In p ps -> Str.after_one_of ps (p ++ r) <> None.
Proof.
  induction ps as [|p' ps IH]; simpl; [tauto|].
  intros [->|I].
  - rewrite after_prefix_append. discriminate.
  - destruct (Str.after_prefix p' (p ++ r)); [discriminate|exact (IH I)].
Qed.

Lemma length_append (s t : string) :
  String.length (s ++ t) = String.length s + String.length t.
Proof. induction s; simpl; lia. Qed.

(** What [lstrip()] returns does not begin with white space, and is the
    end of its argument. *)
Lemma lstrip_space_fuel_done (fuel : nat) (s : string) :
  String.length s <= fuel ->
  Str.after_one_of Str.whitespace (Str.lstrip_space_fuel fuel s) = None.
Proof.
  revert s. induction fuel as [|fuel IH]; intros s L;
    cbn [Str.lstrip_space_fuel].
  - destruct s; [reflexivity|simpl in L; lia].
  - destruct (Str.after_one_of Str.whitespace s) as [r|] eqn:A; [|exact A].
    apply IH. destruct (after_one_of_parts _ _ _ A) as (p & I & ->).
    rewrite length_append in L.
    pose proof (whitespace_not_empty p I). destruct p; [congruence|].
    simpl in L. lia.
Qed.

Lemma lstrip_space_fuel_count (fuel : nat) (s : string) (c : ascii) :
  Str.count (Str.lstrip_space_fuel fuel s) c <= Str.count s c.
Proof.
  revert s. induction fuel as [|fuel IH]; intros s;
    cbn [Str.lstrip_space_fuel]; [lia|].
  destruct (Str.after_one_of Str.whitespace s) as [r|] eqn:A; [|lia].
  destruct (after_one_of_parts _ _ _ A) as (p & _ & ->).
  rewrite count_append. specialize (IH r). lia.
Qed.

(** What [rstrip()] returns is the beginning of its argument and does not
    end with white space. *)
Lemma rstrip_space_prefix (s : string) :
  exists tail, s = (Str.rstrip_space s ++ tail)%string.
Proof.
  induction s as [|a r [tail IH]]; cbn [Str.rstrip_space];
    [exists EmptyString; reflexivity|].
  destruct (Str.mem (String a (Str.rstrip_space r)) Str.whitespace).
  - exists (String a r). reflexivity.
  - exists tail. simpl. rewrite <- IH. reflexivity.
Qed.

Lemma rstrip_space_count (s : string) (c : ascii) :
  Str.count (Str.rstrip_space s) c <= Str.count s c.
Proof.
  induction s as [|a r IH]; cbn [Str.rstrip_space]; [simpl; lia|].
  destruct (Str.mem (String a (Str.rstrip_space r)) Str.whitespace);
    cbn [Str.count]; [lia|].
  destruct (Ascii.eqb a c); lia.
Qed.

Lemma rstrip_space_end (s ws rest : string) :
  In ws Str.whitespace -> Str.rstrip_space s <> (rest ++ ws)%string.
Proof.
  intros I. pose proof (whitespace_not_empty ws I) as N.
  revert rest. induction s as [|a r IH]; cbn [Str.rstrip_space];
    intros rest E.
  - destruct rest; simpl in E; [congruence|discriminate].
  - destruct (Str.mem (String a (Str.rstrip_space r)) Str.whitespace) eqn:M.
    + destruct rest; simpl in E; [congruence|discriminate].
    + destruct rest as [|b rest]; simpl in E.
      * rewrite E, (mem_In _ _ I) in M. discriminate.
      * injection E as _ E. exact (IH rest E).
Qed.

(** A directory name as the script passes it on: without a comma, and
    neither beginning nor ending with a white-space character. *)
Definition trimmed_name (d : string) : Prop :=
  Str.count d "," = 0
  /\ (forall ws rest, In ws Str.whitespace -> d <> (ws ++ rest)%string)
  /\ (forall ws rest, In ws Str.whitespace -> d <> (rest ++ ws)%string).

Lemma append_assoc (s t u : string) :
  ((s ++ t) ++ u = s ++ (t ++ u))%string.
Proof. induction s; simpl; congruence. Qed.

Lemma strip_space_trimmed (piece : string) :
  Str.count piece "," = 0 -> trimmed_name (Str.strip_space piece).
Proof.
  intros C. unfold Str.strip_space, Str.lstrip_space. split; [|split].
  - pose proof (rstrip_space_count
                  (Str.lstrip_space_fuel (String.length piece) piece) ",").
    pose proof (lstrip_space_fuel_count (String.length piece) piece ",").
    lia.
  - intros ws rest I E.
    destruct (rstrip_space_prefix
                (Str.lstrip_space_fuel (String.length piece) piece))
      as [tail T].
    rewrite E, append_assoc in T.
    pose proof (lstrip_space_fuel_done (String.length piece) piece (le_n _))
      as D.
    rewrite T in D. exact (after_one_of_append _ _ _ I D).
  - intros ws rest I. apply rstrip_space_end. exact I.
Qed.

(** X8: the list of excluded directories is empty unless the box is ticked
    and the text is not empty; otherwise it has one name per comma-separated
    piece of the text (one more than the number of commas, so a doubled or
    trailing comma gives an empty name), and every name is free of commas
    and of white space at both ends. *)
Theorem read_excluded_dirs_names (widgets : Widgets) :
  (exclude_dirs widgets = false \/ excluded_dirs_input widgets = EmptyString ->
   read_excluded_dirs widgets = [])
  /\ (exclude_dirs widgets = true ->
      excluded_dirs_input widgets <> EmptyString ->
      List.length (read_excluded_dirs widgets)
      = S (Str.count (excluded_dirs_input widgets) ",")
      /\ Forall trimmed_name (read_excluded_dirs widgets)).
Proof.
  unfold read_excluded_dirs. split.
  - intros [E|E]; rewrite E; [reflexivity|].
    destruct (exclude_dirs widgets); reflexivity.
  - intros B N. rewrite B.
    destruct (excluded_dirs_input widgets) as [|a r] eqn:I; [congruence|].
    cbn [Str.is_empty negb].
    destruct (split_fuel_pieces (String.length (String a r)) (String a r) ","
                (le_n _)) as [L F].
    unfold Str.split. split.
    + rewrite length_map. exact L.
    + apply Forall_map. eapply Forall_impl; [|exact F].
      intros piece. apply strip_space_trimmed.
Qed.

Lemma read_excluded_dirs_names_witness :
  let widgets := mkWidgets "https://github.com/octocat/Hello-World" "master"
                   true " src, docs ,,tests/unit " "" false in
  read_excluded_dirs widgets = ["src"; "docs"; ""; "tests/unit"]
  /\ List.length (read_excluded_dirs widgets) = 4
  /\ Forall trimmed_name (read_excluded_dirs widgets).
Proof.
  split; [reflexivity|].
  exact (proj2 (read_excluded_dirs_names
                  (mkWidgets "https://github.com/octocat/Hello-World" "master"
                     true " src, docs ,,tests/unit " "" false))
               eq_refl ltac:(discriminate)).
Defined.

(** White space beyond ASCII is removed as well: a no-break space before a
    name and an em space after one. *)
Example read_excluded_dirs_unicode :
  let text := (Str.bytes [194; 160] ++ "src, docs" ++ Str.bytes [226; 128; 131]
               ++ ",lib")%string in
  read_excluded_dirs
    (mkWidgets "https://github.com/octocat/Hello-World" "master"
       true text "" false)
  = ["src"; "docs"; "lib"].
Proof. reflexivity. Qed.

(** ** Fetching and building, lines 178-187 *)

Section ProcessData.
Variable w : World.

(** X6: what the build does when an index is missing.  The documents are
    fetched once; if the fetch raises, nothing else is called and nothing is
    stored.  Otherwise both index builds are requested, on the documents the
    fetch returned, also when the first of them raises.  The session gets
    both indices only if both builds return; if the retrieval index is built
    and the summary build raises, the new index is stored without a
    summary, and if the retrieval build raises nothing is stored. *)
Theorem process_data_outcomes
    (user repo : option string) (excluded_dirs : list string)
    (branch : string) (transformations : list Transformation)
    (s : SessionState) (tr : list Event) :
  index s = None \/ summary s = None ->
  let reader :=
    {| reader_github_client := github_client s;
       owner := user;
       repo := repo;
       use_parser := true;
       verbose := false;
       filter_directories := (excluded_dirs, EXCLUDE);
       filter_file_extensions := (excluded_file_extensions, EXCLUDE) |} in
  let r := process_data w user repo excluded_dirs branch transformations
             (mkStore s tr) in
  match load_data w reader branch with
  | Raise e => r = (Raise e, mkStore s (tr ++ [Ev_load_data reader branch]))
  | Return documents =>
      trace (snd r)
      = tr ++ [Ev_load_data reader branch;
               Ev_VectorStoreIndex_from_documents documents true
                 (Some transformations);
               Ev_SummaryIndex_from_documents documents true None]
      /\ match VectorStoreIndex_from_documents w documents true
                 (Some transformations),
               SummaryIndex_from_documents w documents true None with
         | Return i, Return m =>
             fst r = Return tt
             /\ session (snd r) = set_summary (Some m) (set_index (Some i) s)
         | Return i, Raise e =>
             fst r = Raise e /\ session (snd r) = set_index (Some i) s
         | Raise e, _ =>
             fst r = Raise e /\ session (snd r) = s
         end
  end.
Proof.
  intros Missing reader r. subst r reader.
  assert (G : is_None (index s) || is_None (summary s) = true).
  { destruct Missing as [-> | ->]; [reflexivity|].
    destruct (index s); reflexivity. }
  unfold process_data, load_documents, create_index, create_summary.
  unfold_script. rewrite G.
  destruct (load_data w _ branch) as [documents|e]; simpl; [|reflexivity].
  destruct (VectorStoreIndex_from_documents w documents true
              (Some transformations)) as [i|e]; simpl;
    destruct (SummaryIndex_from_documents w documents true None) as [m|e'];
    simpl; rewrite <- !app_assoc; simpl; auto.
Qed.

End ProcessData.

Lemma process_data_outcomes_witness :
  let r := process_data hello_world (Some "octocat") (Some "Hello-World") []
             "master" [TokenTextSplitter 512 128] (mkStore new_session []) in
  fst r = Return tt
  /\ index (session (snd r)) = Some (VectorStoreIndex_object 3)
  /\ summary (session (snd r)) = Some (SummaryIndex_object 3).
Proof.
  destruct (process_data_outcomes hello_world (Some "octocat")
              (Some "Hello-World") [] "master" [TokenTextSplitter 512 128]
              new_session [] (or_introl eq_refl)) as [_ [O S]].
  split; [exact O|]. rewrite S. split; reflexivity.
Defined.

(** ** The start of the script, lines 101-111 *)

Section Startup.
Context {checks : UrlChecks}.
Variable constant : Constants.
Variable w : World.
Variable widgets : Widgets.

(** X4: when setting an environment variable raises a ValueError, the run
    shows the message for that key and returns normally at once: the Gemini
    objects are not made, the link is not looked at and the session state is
    not touched, not even initialised.  An exception of another class is
    not caught. *)
Theorem startup_errors (s : SessionState) :
  let set_google := Ev_os_environ_setitem "GOOGLE_API_KEY" (Gemini_api constant) in
  let set_github := Ev_os_environ_setitem "GITHUB_TOKEN" (github_token constant) in
  let google := os_environ_setitem w "GOOGLE_API_KEY" (Gemini_api constant) in
  let github := os_environ_setitem w "GITHUB_TOKEN" (github_token constant) in
  (google = Raise ValueError ->
   run_main constant w widgets s
   = (Return tt, s, [set_google; Ev_st_error "Google API key is not set."]))
  /\ (google = Raise OtherError ->
      run_main constant w widgets s = (Raise OtherError, s, [set_google]))
  /\ (google = Return tt -> github = Raise ValueError ->
      run_main constant w widgets s
      = (Return tt, s,
         [set_google; set_github;
          Ev_st_error "GitHub Token API key is not set."]))
  /\ (google = Return tt -> github = Raise OtherError ->
      run_main constant w widgets s
      = (Raise OtherError, s, [set_google; set_github])).
Proof.
  unfold run_main, main, set_environ. unfold_script.
  repeat split; intros; repeat match goal with H : _ = _ |- _ => rewrite H end;
    reflexivity.
Qed.

End Startup.

(** A world in which [os.environ] refuses every value. *)
Definition refusing_environ_world : World :=
  mkWorld (fun _ _ => Raise ValueError) (Gemini hello_world)
    (GeminiEmbedding hello_world) (requests_get hello_world)
    (GithubClient_new hello_world) (load_data hello_world)
    (VectorStoreIndex_from_documents hello_world)
    (SummaryIndex_from_documents hello_world)
    (index_as_chat_engine hello_world)
    (summary_as_chat_engine hello_world)
    (query_method hello_world) (chat_method hello_world).

Lemma startup_errors_witness :
  run_main example_constants refusing_environ_world
    (ask hello_world_link "What is it?") ready_session
  = (Return tt, ready_session,
     [Ev_os_environ_setitem "GOOGLE_API_KEY" "gemini-key";
      Ev_st_error "Google API key is not set."]).
Proof.
  exact (proj1 (startup_errors example_constants refusing_environ_world
                  (ask hello_world_link "What is it?") ready_session)
               eq_refl).
Defined.

(** ** What happens only for a repository that exists, lines 133-242 *)

(** The calls of the branch taken when the existence check succeeds. *)
Definition is_page_event (ev : Event) : bool :=
  match ev with
  | Ev_GithubClient _ _
  | Ev_load_data _ _
  | Ev_VectorStoreIndex_from_documents _ _ _
  | Ev_SummaryIndex_from_documents _ _ _
  | Ev_index_as_chat_engine _
  | Ev_summary_as_chat_engine _
  | Ev_query _ _
  | Ev_chat _ _ => true
  | _ => false
  end.

(** After a step, the rest runs on a value the step can return. *)
Lemma respects_bind_post (R : Store -> Store -> Prop)
    (R_trans : forall st1 st2 st3, R st1 st2 -> R st2 st3 -> R st1 st3)
    {A B} (m : M A) (k : A -> M B) (Q : A -> Prop) :
  (forall st a, fst (m st) = Return a -> Q a) ->
  respects R m ->
  (forall a, Q a -> respects R (k a)) ->
  respects R (bind m k).
Proof.
  intros Post Hm Hk st. unfold bind.
  specialize (Hm st). specialize (Post st).
  destruct (m st) as [[a|e] st1]; simpl in *.
  - eapply R_trans; [exact Hm|]. apply Hk, Post. reflexivity.
  - exact Hm.
Qed.

Section PageEvents.
Context {checks : UrlChecks}.
Variable constant : Constants.
Variable w : World.
Variable widgets : Widgets.
Variable P : Event -> Prop.
Hypothesis page_events : forall ev, is_page_event ev = true -> P ev.

Lemma repository_page_only (link : string) :
  respects (only_events P) (repository_page constant w widgets link).
Proof.
  unfold repository_page, make_github_client, process_data, load_documents,
    create_index, create_summary, make_query_engines, submit_question_block.
  repeat first
    [ apply (respects_ret _ (only_events_refl P))
    | apply (respects_lift _ (only_events_refl P))
    | apply (respects_read _ (only_events_refl P))
    | apply (respects_result _ (only_events_refl P))
    | apply (respects_attr_of _ (only_events_refl P))
    | apply only_events_write
    | apply only_events_call; apply page_events; reflexivity
    | apply (respects_submit (only_events P))
    | apply (respects_bind _ (only_events_trans P)); [|intros ?]
    | match goal with
      | |- respects _ (if ?b then _ else _) => destruct b
      | |- respects _ (let '(_, _) := ?x in _) => destruct x
      end ].
Qed.

End PageEvents.

Section Gate.
Context {checks : UrlChecks}.
Variable constant : Constants.
Variable w : World.
Variable widgets : Widgets.

(** The page of the repository answered the existence check with 200. *)
Definition repository_found (link : string) : Prop :=
  exists p,
    urllib_parse.urlparse link = Return p
    /\ requests_get w ("https://github.com/" ++ Str.strip (path p) "/")%string
       = Return 200%Z.

Lemma check_github_repo_exists_true (link : string) (st : Store) :
  fst (check_github_repo_exists w link st) = Return true ->
  repository_found link.
Proof.
  unfold check_github_repo_exists, try_except_ValueError, bind, lift, call, ret.
  destruct (urllib_parse.urlparse link) as [p|[|]] eqn:U; simpl;
    try discriminate.
  unfold Str.split1.
  destruct (Str.cut (Str.strip (path p) "/") "/") as [[h t]|] eqn:K; simpl;
    [|discriminate].
  destruct (cut_parts _ _ _ _ K) as [S _].
  destruct (requests_get w _) as [code|[|]] eqn:G; simpl; try discriminate.
  intros E. injection E as E. apply Z.eqb_eq in E. subst code.
  exists p. split; [exact U|]. rewrite S. exact G.
Qed.

Definition gated (ev : Event) : Prop :=
  is_page_event ev = true -> repository_found (github_repo_link widgets).

Lemma main_gated : respects (only_events gated) (main constant w widgets).
Proof.
  assert (Pre : forall {A} ev (o : outcome A),
             is_page_event ev = false ->
             respects (only_events gated) (call ev o)).
  { intros A ev o F. apply only_events_call. intros X. congruence. }
  assert (Err : forall msg, respects (only_events gated) (st_error msg)).
  { intros msg. apply Pre. reflexivity. }
  assert (Ret : forall {A} (a : A), respects (only_events gated) (ret a)).
  { intros A a. apply respects_ret, only_events_refl. }
  assert (Env : forall key value message,
             respects (only_events gated) (set_environ w key value message)).
  { intros. unfold set_environ.
    apply respects_try; [apply only_events_trans| |].
    - apply respects_bind; [apply only_events_trans|apply Pre; reflexivity|].
      intros ?. apply Ret.
    - apply respects_bind; [apply only_events_trans|apply Err|].
      intros ?. apply Ret. }
  unfold main.
  apply respects_bind; [apply only_events_trans|apply Env|intros go1].
  destruct (negb go1); [apply Ret|].
  apply respects_bind; [apply only_events_trans|apply Env|intros go2].
  destruct (negb go2); [apply Ret|].
  apply respects_bind; [apply only_events_trans|apply Pre; reflexivity|intros ?].
  apply respects_bind; [apply only_events_trans|apply Pre; reflexivity|intros ?].
  apply respects_bind; [apply only_events_trans| |intros ?].
  { unfold init_session_state.
    apply respects_bind;
      [apply only_events_trans|apply respects_read, only_events_refl|intros b].
    destruct (negb b); [|apply Ret].
    repeat (apply respects_bind;
            [apply only_events_trans|apply only_events_write|intros ?]).
    apply only_events_write. }
  unfold link_block.
  destruct (negb (Str.is_empty (github_repo_link widgets))); [|apply Ret].
  apply respects_bind;
    [apply only_events_trans|apply respects_lift, only_events_refl|intros valid].
  destruct (negb valid); [apply Err|].
  apply (respects_bind_post _ (only_events_trans gated) _ _
           (fun found => found = true ->
                         repository_found (github_repo_link widgets))).
  - intros st found E ->. exact (check_github_repo_exists_true _ _ E).
  - unfold check_github_repo_exists.
    apply respects_try; [apply only_events_trans| |apply Ret].
    apply respects_bind;
      [apply only_events_trans|apply respects_lift, only_events_refl|intros p].
    apply respects_bind;
      [apply only_events_trans|apply respects_lift, only_events_refl
      |intros [user repo]].
    apply respects_bind; [apply only_events_trans|apply Pre; reflexivity|].
    intros ?. apply Ret.
  - intros found Found. destruct found; [|apply Err].
    apply repository_page_only. intros ev _ _. exact (Found eq_refl).
Qed.

(** X5: a run creates the GitHub client, fetches documents, builds an
    index, makes a chat engine or puts a question to an engine only after
    the existence check succeeded, that is, only if [requests.get] answered
    200 for [https://github.com/<path of the link without its outer
    slashes>]. *)
Theorem nothing_is_fetched_for_a_missing_repository (s : SessionState) :
  Forall (fun ev => is_page_event ev = false
                    \/ repository_found (github_repo_link widgets))
         (snd (run_main constant w widgets s)).
Proof.
  unfold run_main.
  pose proof (main_gated (mkStore s [])) as (evs & T & F).
  destruct (main constant w widgets (mkStore s [])) as [o st]; simpl in *.
  rewrite T. eapply Forall_impl; [|exact F].
  intros ev G. unfold gated in G.
  destruct (is_page_event ev); [right; auto|left; reflexivity].
Qed.

End Gate.

(** ** How a run ends *)

Definition is_st_error (ev : Event) : bool :=
  match ev with
  | Ev_st_error _ => true
  | _ => false
  end.

(** The session state after lines 118-124. *)
Definition initialised (s : SessionState) : SessionState :=
  if has_github_client s then s
  else mkSessionState true None None None None None [].

Ltac crunch_pairs :=
  repeat first
         [ progress (unfold ret, raise, lift)
         | progress simpl
         | match goal with
           | |- context [is_None ?x] => is_var x; destruct x
           | |- context [let '(_, _) := ?x in _] => is_var x; destruct x
           | |- context [match ?x with Return _ => _ | Raise _ => _ end] =>
               destruct x eqn:?
           | |- context [match ?x with Some _ => _ | None => _ end] =>
               destruct x eqn:?
           | |- context [match ?x with ValueError => _ | OtherError => _ end] =>
               destruct x
           | |- context [if negb ?b then _ else _] => destruct b eqn:?
           | |- context [if ?b then _ else _] => destruct b eqn:?
           end ].

Section RunShape.
Context {checks : UrlChecks}.
Variable constant : Constants.
Variable w : World.
Variable widgets : Widgets.

(** The four ways a run can go: it stops at an error banner; it raises
    before the repository page; the link is empty; or it goes on to the
    repository page.  Until then the session is only initialised and no
    banner is shown. *)
Inductive run_shape (st : Store) (r : outcome unit * Store) : Prop :=
| shape_banner (evs : list Event) (msg : string) :
    fst r = Return tt ->
    session (snd r) = session st
    \/ session (snd r) = initialised (session st) ->
    trace (snd r) = trace st ++ evs ++ [Ev_st_error msg] ->
    Forall (fun ev => is_st_error ev = false /\ is_page_event ev = false) evs ->
    run_shape st r
| shape_raise (e : exn) (evs : list Event) :
    fst r = Raise e ->
    trace (snd r) = trace st ++ evs ->
    Forall (fun ev => is_st_error ev = false) evs ->
    run_shape st r
| shape_empty_link (evs : list Event) :
    github_repo_link widgets = EmptyString ->
    trace (snd r) = trace st ++ evs ->
    Forall (fun ev => is_st_error ev = false) evs ->
    run_shape st r
| shape_page (st1 : Store) (evs : list Event) :
    session st1 = initialised (session st) ->
    trace st1 = trace st ++ evs ->
    Forall (fun ev => is_st_error ev = false) evs ->
    r = repository_page constant w widgets (github_repo_link widgets) st1 ->
    run_shape st r.

Ltac finish_shape :=
  unfold call, set_chat_history, set_summary_query_engine, set_query_engine,
    set_summary, set_index, set_github_client; simpl;
  repeat rewrite <- app_assoc; simpl;
  try match goal with
      | L : github_repo_link _ = String _ _ |- _ => rewrite <- L
      end;
  first
    [ solve [ eapply shape_page;
              [ | | | reflexivity ]; simpl;
              [ reflexivity | reflexivity | repeat constructor ] ]
    | solve [ eapply shape_page;
              [ | | | reflexivity ]; simpl;
              [ reflexivity
              | rewrite <- (app_nil_r (_ ++ _)) at 1;
                rewrite <- app_assoc; reflexivity
              | repeat constructor ] ]
    | solve [ eapply (shape_banner _ _ [_; _; _; _; _]);
              simpl; [ reflexivity | auto | reflexivity | repeat constructor ] ]
    | solve [ eapply (shape_banner _ _ [_; _; _; _]);
              simpl; [ reflexivity | auto | reflexivity | repeat constructor ] ]
    | solve [ eapply (shape_banner _ _ [_; _]);
              simpl; [ reflexivity | auto | reflexivity | repeat constructor ] ]
    | solve [ eapply (shape_banner _ _ [_]);
              simpl; [ reflexivity | auto | reflexivity | repeat constructor ] ]
    | solve [ eapply shape_raise; simpl;
              [ reflexivity | reflexivity | repeat constructor ] ]
    | solve [ eapply shape_empty_link; simpl;
              [ assumption | reflexivity | repeat constructor ] ] ].

Lemma main_shape (st : Store) :
  run_shape st (main constant w widgets st).
Proof.
  destruct st as [[h c i m qe sqe hist] tr].
  unfold main, set_environ, init_session_state, link_block,
    check_github_repo_exists.
  remember (repository_page constant w widgets) as page eqn:Page.
  unfold_script.
  destruct (github_repo_link widgets) as [|c0 link] eqn:L.
  - crunch_pairs; finish_shape.
  - crunch_pairs; subst page; finish_shape.
Qed.

End RunShape.

Section RunEnds.
Context {checks : UrlChecks}.
Variable constant : Constants.
Variable w : World.
Variable widgets : Widgets.

(** The repository page returns normally only with both indices and both
    engines in the session. *)
Lemma repository_page_ready (link : string) (st : Store) :
  fst (repository_page constant w widgets link st) = Return tt ->
  orchestrator_state (session (snd (repository_page constant w widgets link st)))
  = Ready.
Proof.
  destruct st as [[h c i m qe sqe hist] tr].
  unfold repository_page, make_github_client, process_data, load_documents,
    create_index, create_summary, make_query_engines, submit_question_block.
  unfold_script.
  crunch_pairs; intros; try discriminate; reflexivity.
Qed.

(** It shows no error banner. *)
Lemma repository_page_quiet (link : string) (st : Store) :
  exists evs,
    trace (snd (repository_page constant w widgets link st)) = trace st ++ evs
    /\ Forall (fun ev => is_st_error ev = false) evs.
Proof.
  apply (repository_page_only constant w widgets
           (fun ev => is_st_error ev = false)).
  intros ev X. destruct ev; simpl in *; congruence.
Qed.

Lemma initialised_again (s : SessionState) :
  has_github_client s = true -> initialised s = s.
Proof. unfold initialised. intros ->. reflexivity. Qed.

Lemma not_in_quiet (evs : list Event) (msg : string) :
  Forall (fun ev => is_st_error ev = false) evs -> ~ In (Ev_st_error msg) evs.
Proof.
  intros F Hin. rewrite Forall_forall in F. specialize (F _ Hin). discriminate.
Qed.

(** X7: a run on a non-empty link that returns normally and shows no error
    banner leaves the session Ready: both indices and both query engines
    are stored, whatever the session was before. *)
Theorem clean_run_leaves_session_ready (s : SessionState) :
  github_repo_link widgets <> EmptyString ->
  let r := run_main constant w widgets s in
  fst (fst r) = Return tt ->
  Forall (fun ev => is_st_error ev = false) (snd r) ->
  orchestrator_state (snd (fst r)) = Ready.
Proof.
  intros L r. subst r. unfold run_main.
  destruct (main_shape constant w widgets (mkStore s []))
    as [evs msg O _ T _|e evs O _ _|evs E _ _|st1 evs S1 T1 F1 E];
    destruct (main constant w widgets (mkStore s [])) as [o st];
    simpl in *; intros Ok Quiet.
  - exfalso. rewrite T in Quiet. apply Forall_app in Quiet as [_ Q].
    inversion Q as [|? ? X _]. discriminate X.
  - congruence.
  - contradiction.
  - pose proof (repository_page_ready (github_repo_link widgets) st1) as R.
    rewrite <- E in R. simpl in R. apply R. exact Ok.
Qed.

(** X10: a run that shows an error banner shows one, as the last thing it
    does, and returns normally; before it the run has neither created the
    client nor fetched, built or asked anything; and the session state is
    what it was, or, for a new session, the initialised empty state. *)
Theorem error_banner_ends_the_run (s : SessionState) (msg : string) :
  let r := run_main constant w widgets s in
  In (Ev_st_error msg) (snd r) ->
  fst (fst r) = Return tt
  /\ (snd (fst r) = s \/ snd (fst r) = initialised s)
  /\ exists evs,
       snd r = evs ++ [Ev_st_error msg]
       /\ Forall (fun ev => is_st_error ev = false
                            /\ is_page_event ev = false) evs.
Proof.
  intros r. subst r. unfold run_main.
  destruct (main_shape constant w widgets (mkStore s []))
    as [evs msg' O S T F|e evs O T F|evs E T F|st1 evs S1 T1 F1 E];
    [| | |pose proof (repository_page_quiet (github_repo_link widgets) st1)
            as (evs' & T' & F'); rewrite <- E in T'];
    destruct (main constant w widgets (mkStore s [])) as [o st];
    simpl in *; intros Hin.
  - rewrite T in Hin. apply in_app_or in Hin as [Hin|[Hin|[]]].
    + exfalso. rewrite Forall_forall in F. destruct (F _ Hin). discriminate.
    + injection Hin as <-. split; [exact O|]. split; [exact S|].
      exists evs. rewrite T. auto.
  - exfalso. rewrite T in Hin. exact (not_in_quiet _ _ F Hin).
  - exfalso. rewrite T in Hin. exact (not_in_quiet _ _ F Hin).
  - exfalso. rewrite T', T1 in Hin. simpl in Hin.
    apply in_app_or in Hin as [Hin|Hin];
      [exact (not_in_quiet _ _ F1 Hin)|exact (not_in_quiet _ _ F' Hin)].
Qed.

End RunEnds.

Lemma clean_run_leaves_session_ready_witness :
  orchestrator_state
    (snd (fst (run_main example_constants hello_world
                 (ask hello_world_link "What is it?") new_session)))
  = Ready.
Proof.
  apply (clean_run_leaves_session_ready example_constants hello_world
           (ask hello_world_link "What is it?") new_session).
  - discriminate.
  - reflexivity.
  - vm_compute. repeat constructor.
Defined.

(** A world in which no page answers 200. *)
Definition not_found_world : World :=
  mkWorld (os_environ_setitem hello_world) (Gemini hello_world)
    (GeminiEmbedding hello_world) (fun _ => Return 404%Z)
    (GithubClient_new hello_world) (load_data hello_world)
    (VectorStoreIndex_from_documents hello_world)
    (SummaryIndex_from_documents hello_world)
    (index_as_chat_engine hello_world)
    (summary_as_chat_engine hello_world)
    (query_method hello_world) (chat_method hello_world).

Lemma error_banner_ends_the_run_witness :
  let r := run_main example_constants not_found_world
             (ask "https://github.com/octocat/deleted" "What is it?")
             ready_session in
  fst (fst r) = Return tt /\ (snd (fst r) = ready_session
                              \/ snd (fst r) = initialised ready_session).
Proof.
  destruct (error_banner_ends_the_run example_constants not_found_world
              (ask "https://github.com/octocat/deleted" "What is it?")
              ready_session
              "The GitHub repository does not exist or the URL is incorrect.")
    as (O & S & _).
  - vm_compute. do 5 right. left. reflexivity.
  - split; [exact O|exact S].
Defined.

(** ** Objects kept in the session *)

Section Kept.
Context {checks : UrlChecks}.
Variable constant : Constants.

Definition is_client_construction (ev : Event) : bool :=
  match ev with
  | Ev_GithubClient _ _ => true
  | _ => false
  end.

Definition is_index_engine_construction (ev : Event) : bool :=
  match ev with
  | Ev_index_as_chat_engine _ => true
  | _ => false
  end.

Definition is_summary_engine_construction (ev : Event) : bool :=
  match ev with
  | Ev_summary_as_chat_engine _ => true
  | _ => false
  end.

(** X9: over any number of runs of an initialised session, the GitHub
    client and each of the two chat engines is made at most once: an object
    that is in the session stays the same object, and its constructor is
    not called again. *)
Theorem session_objects_are_made_once
    (runs : list (World * Widgets)) (s : SessionState) :
  has_github_client s = true ->
  let r := run_session constant runs s in
  (github_client s <> None ->
   github_client (fst r) = github_client s
   /\ Forall (fun ev => is_client_construction ev = false) (snd r))
  /\ (query_engine s <> None ->
      query_engine (fst r) = query_engine s
      /\ Forall (fun ev => is_index_engine_construction ev = false) (snd r))
  /\ (summary_query_engine s <> None ->
      summary_query_engine (fst r) = summary_query_engine s
      /\ Forall (fun ev => is_summary_engine_construction ev = false) (snd r)).
Proof.
  intros H r. destruct (run_session_step constant runs s) as [S F].
  fold r in S, F. destruct (S H) as (_ & C & _ & Q & M & _).
  repeat split; auto;
    (eapply Forall_impl; [|exact F]; intros ev A; specialize (A H);
     destruct ev; simpl in *; auto; try congruence;
     destruct A; congruence).
Qed.

(** X11: without a press on "Submit Question", or with an empty question
    box, a run puts no question to either engine, and the chat history of an
    initialised session is unchanged. *)
Theorem no_question_no_engine_call
    (w : World) (widgets : Widgets) (s : SessionState) :
  submit_question widgets = false \/ question_input widgets = EmptyString ->
  let r := run_main constant w widgets s in
  Forall (fun ev => match ev with
                    | Ev_query _ _ | Ev_chat _ _ => False
                    | _ => True
                    end) (snd r)
  /\ (has_github_client s = true ->
      chat_history (snd (fst r)) = chat_history s).
Proof.
  intros N r. split.
  - eapply Forall_impl; [|apply run_main_events].
    intros ev X. destruct ev; simpl in *; auto;
      destruct X as (_ & Sb & Q & Ne); destruct N; congruence.
  - intros H.
    destruct (run_main_history constant w widgets s H)
      as [Same|(_ & Sb & Ne & _)]; [exact Same|].
    destruct N; congruence.
Qed.

(** The arguments of a fetch, as X12 states them. *)
Definition fetch_as_typed (widgets : Widgets) (ev : Event) : Prop :=
  match ev with
  | Ev_load_data reader b =>
      b = branch widgets
      /\ extract_github_details (github_repo_link widgets)
         = Return (owner reader, repo reader)
      /\ filter_directories reader = (read_excluded_dirs widgets, EXCLUDE)
      /\ use_parser reader = true
      /\ verbose reader = false
  | _ => True
  end.

(** X12: every fetch of a run is made for the owner and repository that
    [extract_github_details] returns for the link of that run, on the branch
    in the branch field as it is, excluding the directories read from the
    exclusion field, with the parser on and verbose off. *)
Theorem fetch_uses_what_was_typed
    (w : World) (widgets : Widgets) (s : SessionState) :
  Forall (fetch_as_typed widgets) (snd (run_main constant w widgets s)).
Proof.
  eapply Forall_impl; [|apply run_main_events].
  intros ev X. destruct ev; simpl in *; auto. tauto.
Qed.

End Kept.

Lemma session_objects_are_made_once_witness :
  let r := run_session example_constants
             [(hello_world, ask hello_world_link "What is it?");
              (linux, ask linux_link "Where is fork?")]
             ready_session in
  github_client (fst r) = Some (mkGithubClient "github-token" true)
  /\ query_engine (fst r) = Some (ChatEngine_object 6).
Proof.
  destruct (session_objects_are_made_once example_constants
              [(hello_world, ask hello_world_link "What is it?");
               (linux, ask linux_link "Where is fork?")]
              ready_session eq_refl) as (C & Q & _).
  split.
  - exact (proj1 (C ltac:(discriminate))).
  - exact (proj1 (Q ltac:(discriminate))).
Defined.

Lemma no_question_no_engine_call_witness :
  chat_history
    (snd (fst (run_main example_constants hello_world
                 (mkWidgets hello_world_link "master" false "" "" true)
                 ready_session)))
  = [].
Proof.
  exact (proj2 (no_question_no_engine_call example_constants hello_world
                  (mkWidgets hello_world_link "master" false "" "" true)
                  ready_session (or_intror eq_refl))
               eq_refl).
Defined.

(** ** The branch field *)

Lemma bind_trace_extends (P : Event -> Prop) {A B} (m : M A) (k : A -> M B)
    (st : Store) :
  (forall a, respects (only_events P) (k a)) ->
  exists evs, trace (snd (bind m k st)) = trace (snd (m st)) ++ evs.
Proof.
  intros Hk. unfold bind. destruct (m st) as [[a|e] st1]; simpl.
  - destruct (Hk a st1) as (evs & T & _). eauto.
  - exists []. symmetry. apply app_nil_r.
Qed.

Section Branch.
Context {checks : UrlChecks}.
Variable constant : Constants.

(** X13: the fetch does not wait for a branch.  When the start of the
    script goes through and the link passes validation and the existence
    check, a run on a session that has its client and lacks an index asks
    the reader for the documents of the branch in the branch field as it
    is, so also for the empty branch name when the field is empty. *)
Theorem fetch_does_not_wait_for_a_branch
    (w : World) (widgets : Widgets) (s : SessionState) :
  has_github_client s = true ->
  github_client s <> None ->
  index s = None \/ summary s = None ->
  startup_succeeds constant w ->
  link_accepted w (github_repo_link widgets) ->
  exists reader,
    In (Ev_load_data reader (branch widgets))
       (snd (run_main constant w widgets s)).
Proof.
  intros H Nc Missing (E1 & E2 & E3 & E4) LA.
  pose proof LA as (V & p & _ & _ & P & _).
  destruct (extract_github_details_returns _ p P) as (u & r & X).
  unfold run_main, main.
  erewrite bind_returns by (apply set_environ_returns; exact E1).
  cbn [negb].
  erewrite bind_returns by (apply set_environ_returns; exact E2).
  cbn [negb].
  erewrite bind_returns by (apply call_returns; exact E3).
  erewrite bind_returns by (apply call_returns; exact E4).
  erewrite bind_returns by (apply init_session_state_again; exact H).
  unfold link_block. rewrite (link_not_empty _ V). cbn [negb].
  erewrite bind_returns by (unfold lift; rewrite V; reflexivity).
  cbn [negb].
  match goal with
  | |- context [bind (check_github_repo_exists _ _) _ ?st] =>
      destruct (check_github_repo_exists_accepted w _ st LA) as [url C]
  end.
  erewrite bind_returns by exact C.
  unfold repository_page.
  erewrite bind_returns by (apply make_github_client_again; exact Nc).
  erewrite bind_returns by (unfold lift; rewrite X; reflexivity).
  cbv beta iota.
  unfold record; cbn [session trace app].
  match goal with
  | |- context [bind (process_data w u r ?dirs ?b ?ts) ?k (mkStore s ?tr)] =>
      destruct (bind_trace_extends (script_event constant widgets)
                  (process_data w u r dirs b ts) k (mkStore s tr))
        as (evs & T);
      [ intros ?;
        apply respects_bind;
        [ apply only_events_trans
        | apply make_query_engines_events; exact V
        | intros ?; apply submit_question_block_events; exact V ]
      | destruct (process_data_fetches w u r dirs b ts s tr Missing)
          as (reader & evs' & O);
        destruct (bind (process_data w u r dirs b ts) k (mkStore s tr))
          as [o st] eqn:R ]
  end.
  cbn [fst snd] in T |- *. rewrite O in T. rewrite T.
  exists reader. simpl. do 5 right. left. reflexivity.
Qed.

End Branch.

Lemma fetch_does_not_wait_for_a_branch_witness :
  exists reader,
    In (Ev_load_data reader "")
       (snd (run_main example_constants hello_world
               (mkWidgets hello_world_link "" false "" "" false)
               (mkSessionState true (Some (mkGithubClient "github-token" true))
                  None None None None []))).
Proof.
  apply (fetch_does_not_wait_for_a_branch example_constants hello_world
           (mkWidgets hello_world_link "" false "" "" false)
           (mkSessionState true (Some (mkGithubClient "github-token" true))
              None None None None [])).
  - reflexivity.
  - discriminate.
  - left. reflexivity.
  - repeat split.
  - split; [reflexivity|].
    exists (mkParseResult "https" "github.com" "/octocat/Hello-World" "" "" "").
    exists "octocat", "Hello-World". repeat split.
Defined.

(** ** A link that cannot be parsed *)

Section Unparsable.
Context {checks : UrlChecks}.
Variable constant : Constants.

(** X14: the validator is called outside any [try].  When [urlparse]
    raises on the link, [is_valid_github_url] raises the same exception, and
    a run whose start goes through ends with that exception right after
    initialising the session: no banner is shown and no request is made. *)
Theorem unparsable_link_raises
    (w : World) (widgets : Widgets) (s : SessionState) (e : exn) :
  urllib_parse.urlparse (github_repo_link widgets) = Raise e ->
  startup_succeeds constant w ->
  is_valid_github_url (github_repo_link widgets) = Raise e
  /\ run_main constant w widgets s
     = (Raise e, initialised s,
        [Ev_os_environ_setitem "GOOGLE_API_KEY" (Gemini_api constant);
         Ev_os_environ_setitem "GITHUB_TOKEN" (github_token constant);
         Ev_Gemini;
         Ev_GeminiEmbedding "models/embedding-001" (Gemini_api constant)]).
Proof.
  intros U (E1 & E2 & E3 & E4).
  assert (V : is_valid_github_url (github_repo_link widgets) = Raise e).
  { unfold is_valid_github_url. rewrite U. reflexivity. }
  split; [exact V|].
  assert (L : Str.is_empty (github_repo_link widgets) = false).
  { destruct (github_repo_link widgets); [|reflexivity].
    vm_compute in U. discriminate. }
  unfold run_main, main.
  erewrite bind_returns by (apply set_environ_returns; exact E1).
  cbn [negb].
  erewrite bind_returns by (apply set_environ_returns; exact E2).
  cbn [negb].
  erewrite bind_returns by (apply call_returns; exact E3).
  erewrite bind_returns by (apply call_returns; exact E4).
  unfold link_block. rewrite L. cbn [negb].
  destruct s as [[|] c i m qe sqe hist];
    unfold init_session_state, initialised; unfold_script; rewrite V;
    reflexivity.
Qed.

End Unparsable.

Lemma unparsable_link_raises_witness :
  fst (fst (run_main example_constants hello_world
              (ask "http://[::1" "What is it?") new_session))
  = Raise ValueError.
Proof.
  rewrite (proj2 (unparsable_link_raises example_constants hello_world
                    (ask "http://[::1" "What is it?") new_session ValueError
                    eq_refl ltac:(repeat split))).
  reflexivity.
Defined.

Lemma extract_github_details_names_witness :
  exists user repo,
    extract_github_details "https://github.com/octocat/Hello-World/"
    = Return (Some user, Some repo)
    /\ user <> EmptyString /\ repo <> EmptyString.
Proof.
  destruct (extract_github_details_names
              "https://github.com/octocat/Hello-World/"
              (mkParseResult "https" "github.com" "/octocat/Hello-World/"
                 "" "" "")
              (Some "octocat", Some "Hello-World") eq_refl eq_refl)
    as [N|(user & repo & E & Nu & Nr & _)]; [discriminate|].
  exists user, repo. rewrite <- E. auto.
Defined.

Lemma check_github_repo_exists_request_witness :
  check_github_repo_exists hello_world
    "http://example.org//octocat/Hello-World/?tab=readme#top"
    (mkStore new_session [])
  = (Return true,
     mkStore new_session
       [Ev_requests_get "https://github.com/octocat/Hello-World"]).
Proof.
  exact (check_github_repo_exists_request hello_world
           "http://example.org//octocat/Hello-World/?tab=readme#top"
           (mkParseResult "http" "example.org" "//octocat/Hello-World/" ""
              "tab=readme" "top")
           (mkStore new_session []) eq_refl ltac:(discriminate)).
Defined.
